(** * TUBA service worker drafts: request interception, cache lifecycle.

    A shallow embedding of the five drafts of the TUBA service worker
    ([sw.js] and its four earlier or later versions) and the properties of
    their install, activate, fetch and message handlers.

    The handlers are sequences of calls into host primitives (the Cache
    API, [fetch], [skipWaiting], [clients.claim]).  The host is modelled by
    a store of named cache partitions, a network oracle and a log of the
    host calls a handler issues; the handlers themselves are transcribed
    from the drafts in a small state-and-exception monad. *)

From Stdlib Require Import String Ascii ZArith List Bool Lia.
From stdpp Require Import base option list gmap strings.

Local Open Scope string_scope.

(** ** JavaScript string methods used by the drafts *)

Module JsString.

(** [s.startsWith(p)] *)
Definition startsWith (s p : string) : bool := String.prefix p s.

(** [s.includes(p)] *)
Definition includes (s p : string) : bool :=
  match String.index 0 p s with
  | Some _ => true
  | None => false
  end.

(** [s.endsWith(p)] *)
Definition endsWith (s p : string) : bool :=
  let n := String.length s in
  let m := String.length p in
  (m <=? n)%nat && (String.substring (n - m) m s =? p).

(** [s.replace(pat, by)] with a string pattern: the first occurrence only. *)
Definition replace (s pat by_ : string) : string :=
  match String.index 0 pat s with
  | None => s
  | Some i =>
      let l := String.length pat in
      String.substring 0 i s ++ by_
        ++ String.substring (i + l) (String.length s - (i + l)) s
  end.

End JsString.

(** ** Requests, responses, errors *)

(** [Response.type] *)
Inductive ResponseType :=
  Basic | Cors | Default | Error | Opaque | OpaqueRedirect.

Definition ResponseType_eqb (a b : ResponseType) : bool :=
  match a, b with
  | Basic, Basic | Cors, Cors | Default, Default
  | Error, Error | Opaque, Opaque | OpaqueRedirect, OpaqueRedirect => true
  | _, _ => false
  end.

(** [[...].includes(t)] on response types *)
Definition type_in (l : list ResponseType) (t : ResponseType) : bool :=
  existsb (ResponseType_eqb t) l.
Arguments type_in : simpl never.

Record Response := mkResponse {
  status : Z;
  statusText : string;
  rtype : ResponseType;
  content_type : option string;
  body : string
}.

(** The components of [new URL(request.url)] the drafts read. *)
Record URL := mkURL {
  href : string;
  protocol : string;
  origin : string;
  hostname : string;
  pathname : string
}.

Record Request := mkRequest {
  method : string;
  url : URL;
  mode : string;
  accept : option string   (* request.headers.get('accept'); None is null *)
}.

(** The [cache] option of a fetch. *)
Inductive CacheMode := CacheDefault | CacheNoStore | CacheReload.

(** Values a promise of the drafts can reject with. *)
Inductive Exn :=
| FetchFailed                 (* the rejection of a failed fetch *)
| NullDeref (prop : string)   (* TypeError: reading a property of null *)
| AddFailed                   (* TypeError of cache.add / cache.addAll *)
| JsError (msg : string).     (* new Error(msg) *)

Inductive Result (A : Type) :=
| Ok (a : A)
| Throw (e : Exn).
Arguments Ok {A} a.
Arguments Throw {A} e.

(** ** The host: cache storage, network, worker globals *)

(** A partition maps a request identity (the URL of a GET request) to the
    response stored last. *)
Abbreviation Cache := (gmap string Response).

(** [caches]: the named partitions, in creation order. *)
Definition CacheStorage := list (string * Cache).

Record Host := mkHost {
  location_origin : string;         (* location.origin *)
  BASE_PATH : string;               (* new URL(self.registration.scope).pathname *)
  parse_url : string -> URL;        (* new URL(s, location) *)
  navigator_onLine : option bool;   (* None: self.navigator is undefined *)
  net : nat -> Request -> CacheMode -> option Response
                                    (* the n-th fetch: a response, or None
                                       when the fetch rejects *)
}.

Record World := mkWorld {
  caches : CacheStorage;
  fetches : nat                     (* fetches issued so far *)
}.

(** Host calls, as a handler issues them. *)
Inductive Event :=
| EvFetch (req : Request) (cm : CacheMode)
| EvCachesMatch (key : string)
| EvCacheMatch (name key : string)
| EvCachesOpen (name : string)
| EvCachePut (name key : string) (resp : Response)
| EvCachesKeys
| EvCachesDelete (name : string)
| EvSkipWaiting
| EvClientsClaim.

Definition is_fetch_event (e : Event) : bool :=
  match e with EvFetch _ _ => true | _ => false end.

Definition is_cache_event (e : Event) : bool :=
  match e with
  | EvCachesMatch _ | EvCacheMatch _ _ | EvCachesOpen _
  | EvCachePut _ _ _ | EvCachesKeys | EvCachesDelete _ => true
  | _ => false
  end.

(** *** Pure operations on the store *)

Definition storage_keys (cs : CacheStorage) : list string := map fst cs.

Fixpoint storage_get (cs : CacheStorage) (name : string) : option Cache :=
  match cs with
  | [] => None
  | (n, c) :: rest => if n =? name then Some c else storage_get rest name
  end.

Definition storage_has (cs : CacheStorage) (name : string) : bool :=
  existsb (String.eqb name) (storage_keys cs).

(** The response the partition [name] holds for [key]. *)
Definition storage_lookup (cs : CacheStorage) (name key : string)
  : option Response :=
  match storage_get cs name with
  | Some c => c !! key
  | None => None
  end.

(** [caches.open(name)]: the partition is created, last, when it is missing. *)
Definition storage_open (cs : CacheStorage) (name : string) : CacheStorage :=
  if storage_has cs name then cs else (cs ++ [(name, ∅)])%list.

(** [caches.delete(name)] *)
Definition storage_delete (cs : CacheStorage) (name : string) : CacheStorage :=
  List.filter (fun p => negb (fst p =? name)) cs.

(** [caches.match(key)]: the partitions are searched in creation order. *)
Fixpoint storage_match (cs : CacheStorage) (key : string) : option Response :=
  match cs with
  | [] => None
  | (_, c) :: rest =>
      match c !! key with
      | Some r => Some r
      | None => storage_match rest key
      end
  end.

Fixpoint storage_put (cs : CacheStorage) (name key : string) (r : Response)
  : CacheStorage :=
  match cs with
  | [] => []
  | (n, c) :: rest =>
      if n =? name then (n, <[key := r]> c) :: rest
      else (n, c) :: storage_put rest name key r
  end.

(** [cache.put] rejects a request that is not a GET over http(s), and a
    partial (206) response. *)
Definition put_accepts (req : Request) (r : Response) : bool :=
  (method req =? "GET")
  && ((protocol (url req) =? "http:") || (protocol (url req) =? "https:"))
  && negb (status r =? 206)%Z.

(** ** The handler monad: store, fetch counter, log, exceptions *)

Record Run (A : Type) := mkRun {
  result : Result A;
  after : World;
  emitted : list Event
}.
Arguments mkRun {A} result after emitted.
Arguments result {A} r.
Arguments after {A} r.
Arguments emitted {A} r.

Definition M (A : Type) := World -> Run A.

Definition ret {A} (a : A) : M A := fun w => mkRun (Ok a) w [].

Definition throw {A} (e : Exn) : M A := fun w => mkRun (Throw e) w [].

Definition bind {A B} (m : M A) (f : A -> M B) : M B := fun w =>
  match m w with
  | mkRun (Ok a) w1 l1 =>
      match f a w1 with
      | mkRun r w2 l2 => mkRun r w2 (l1 ++ l2)%list
      end
  | mkRun (Throw e) w1 l1 => mkRun (Throw e) w1 l1
  end.

(** [try { m } catch (e) { h e }], and [m.catch(h)] on a promise. *)
Definition try_catch {A} (m : M A) (h : Exn -> M A) : M A := fun w =>
  match m w with
  | mkRun (Ok a) w1 l1 => mkRun (Ok a) w1 l1
  | mkRun (Throw e) w1 l1 =>
      match h e w1 with
      | mkRun r w2 l2 => mkRun r w2 (l1 ++ l2)%list
      end
  end.

Notation "x <- m ;; k" := (bind m (fun x => k))
  (at level 100, m at next level, k at level 200, right associativity).
Notation "m ;; k" := (bind m (fun _ => k))
  (at level 100, k at level 200, right associativity).

(** *** Host primitives *)

Definition emit (e : Event) : M unit := fun w => mkRun (Ok tt) w [e].

(** [fetch(request, {cache: cm})] *)
Definition fetch (h : Host) (req : Request) (cm : CacheMode) : M Response :=
  fun w =>
    let w' := mkWorld (caches w) (S (fetches w)) in
    match net h (fetches w) req cm with
    | Some r => mkRun (Ok r) w' [EvFetch req cm]
    | None => mkRun (Throw FetchFailed) w' [EvFetch req cm]
    end.

(** [caches.match(request)]: a request that is not a GET matches nothing. *)
Definition caches_match (req : Request) : M (option Response) := fun w =>
  mkRun
    (Ok (if method req =? "GET" then storage_match (caches w) (href (url req))
         else None))
    w [EvCachesMatch (href (url req))].

(** [caches.match(s)] with a URL string, resolved by the host. *)
Definition caches_match_url (h : Host) (s : string) : M (option Response) :=
  fun w =>
    let key := href (parse_url h s) in
    mkRun (Ok (storage_match (caches w) key)) w [EvCachesMatch key].

(** [caches.open(name)]; the partition is referred to by its name. *)
Definition caches_open (name : string) : M unit := fun w =>
  mkRun (Ok tt) (mkWorld (storage_open (caches w) name) (fetches w))
    [EvCachesOpen name].

(** [cache.match(s)] on the partition [name]. *)
Definition cache_match_url (h : Host) (name s : string)
  : M (option Response) := fun w =>
    let key := href (parse_url h s) in
    mkRun (Ok (storage_lookup (caches w) name key)) w [EvCacheMatch name key].

(** [cache.put(request, response.clone())] on the partition [name].  The
    drafts do not await it: when the host rejects the put the handler does
    not observe it, and the entry is not written. *)
Definition cache_put (name : string) (req : Request) (r : Response) : M unit :=
  fun w =>
    let key := href (url req) in
    mkRun (Ok tt)
      (if put_accepts req r
       then mkWorld (storage_put (caches w) name key r) (fetches w)
       else w)
      [EvCachePut name key r].

(** [caches.keys()] *)
Definition caches_keys : M (list string) := fun w =>
  mkRun (Ok (storage_keys (caches w))) w [EvCachesKeys].

(** [caches.delete(name)] *)
Definition caches_delete (name : string) : M unit := fun w =>
  mkRun (Ok tt) (mkWorld (storage_delete (caches w) name) (fetches w))
    [EvCachesDelete name].

Definition skipWaiting : M unit := emit EvSkipWaiting.
Definition clients_claim : M unit := emit EvClientsClaim.

(** [Promise.all(xs.map(f))]: the calls are issued in list order.  No
    callback the drafts pass to it rejects, so no call is skipped. *)
Fixpoint for_each {A} (f : A -> M unit) (xs : list A) : M unit :=
  match xs with
  | [] => ret tt
  | x :: rest => f x ;; for_each f rest
  end.

(** What a fetch handler leaves the page with. *)
Inductive Outcome :=
| PassThrough                             (* no respondWith: default handling *)
| RespondWith (p : Result (option Response)).
                                          (* the promise's settled value;
                                             None is undefined *)

Record Handled := mkHandled {
  outcome : Outcome;
  world : World;
  calls : list Event
}.

Definition pass_through (w : World) : Handled := mkHandled PassThrough w [].

Definition respondWith (m : M (option Response)) (w : World) : Handled :=
  match m w with
  | mkRun r w' l => mkHandled (RespondWith r) w' l
  end.

(** An async function that returns a response object. *)
Definition returns (m : M Response) : M (option Response) :=
  r <- m ;; ret (Some r).

(** [new Response('', { status: 503, statusText: 'Offline' })]: a string
    body, even empty, gives the response a text/plain content type. *)
Definition offline_503 : Response :=
  mkResponse 503 "Offline" Default (Some "text/plain;charset=UTF-8")
    EmptyString.

(** [request.mode === 'navigate' ||
     request.headers.get('accept')?.includes('text/html')] *)
Definition is_navigate (req : Request) : bool :=
  (mode req =? "navigate")
  || match accept req with
     | Some a => JsString.includes a "text/html"
     | None => false
     end.

(** [(await a) || (await b)] on looked-up responses *)
Definition or_else (a b : M (option Response)) : M (option Response) :=
  x <- a ;;
  match x with
  | Some r => ret (Some r)
  | None => b
  end.

(** *** [cache.add] and [cache.addAll] *)

(** [new Request(s)] *)
Definition request_of (h : Host) (s : string) : Request :=
  mkRequest "GET" (parse_url h s) "cors" None.

(** [response.ok] *)
Definition response_ok (r : Response) : bool :=
  (200 <=? status r)%Z && (status r <=? 299)%Z.

Definition http_scheme (u : URL) : bool :=
  (protocol u =? "http:") || (protocol u =? "https:").

(** The fetch half of [cache.add]: it rejects when the scheme is not
    http(s), when the fetch fails, and when the response is not ok or is
    partial.  (Response headers are not modelled, so neither is the
    rejection of a response that varies on everything.  The host starts
    the fetches of a list together; the model issues them in list order
    and stops at the first that fails, so its log holds the fetches up to
    that one.) *)
Definition add_fetch (h : Host) (cm : CacheMode) (req : Request) : M Response :=
  if negb (http_scheme (url req)) then throw AddFailed
  else
    r <- fetch h req cm ;;
    if response_ok r && negb (status r =? 206)%Z then ret r
    else throw AddFailed.

Fixpoint add_fetch_all (h : Host) (cm : CacheMode) (reqs : list Request)
  : M (list (Request * Response)) :=
  match reqs with
  | [] => ret []
  | req :: rest =>
      r <- add_fetch h cm req ;;
      rs <- add_fetch_all h cm rest ;;
      ret ((req, r) :: rs)
  end.

(** [cache.addAll(requests)] on the partition [name]: nothing is written
    unless every request was fetched.  This is addAll on a list of
    distinct URLs, as the asset lists of the install handlers are; see
    [cache_addAll_batch] for a list that may name a URL twice. *)
Definition cache_addAll (h : Host) (name : string) (cm : CacheMode)
    (reqs : list Request) : M unit :=
  rs <- add_fetch_all h cm reqs ;;
  for_each (fun p => cache_put name (fst p) (snd p)) rs.

(** [cache.add(s)] on the partition [name] *)
Definition cache_add (h : Host) (name s : string) : M unit :=
  cache_addAll h name CacheDefault [request_of h s].

(** [cache.addAll(requests)] on a list that the page chooses: as
    [cache_addAll], except that the host rejects a batch in which two
    requests have the same URL, after the fetches and with nothing
    written.  (The model keeps one value for every rejection of addAll.) *)
Definition cache_addAll_batch (h : Host) (name : string) (cm : CacheMode)
    (reqs : list Request) : M unit :=
  if bool_decide (NoDup (map (fun r => href (url r)) reqs))
  then cache_addAll h name cm reqs
  else add_fetch_all h cm reqs ;; throw AddFailed.

(** *** The cache-first tail shared by sw.js (lines 85-115) and the v1.2
    draft (lines 122-153); the two differ in the partition name only. *)
Definition cache_first (DYNAMIC_CACHE : string) (h : Host) (request : Request)
  : M Response :=
  let url := url request in
  cached <- caches_match request ;;
  match cached with
  | Some c => ret c
  | None =>
      try_catch
        (networkResponse <- fetch h request CacheDefault ;;
         (if (status networkResponse =? 200)%Z
             || type_in [Basic; Cors; Opaque] (rtype networkResponse)
          then caches_open DYNAMIC_CACHE ;;
               cache_put DYNAMIC_CACHE request networkResponse
          else ret tt) ;;
         ret networkResponse)
        (fun _ =>
           (* Final fallback: app shell for navigations *)
           shell <- (if is_navigate request then
                       caches_match_url h (BASE_PATH h ++ "index.html")
                     else ret None) ;;
           match shell with
           | Some s => ret s
           | None =>
               (* path-only match for same-origin resources *)
               pathFallback <-
                 (if origin url =? location_origin h then
                    caches_match_url h
                      (BASE_PATH h
                         ++ JsString.replace (pathname url) (BASE_PATH h) EmptyString)
                  else ret None) ;;
               match pathFallback with
               | Some p => ret p
               | None => ret offline_503
               end
           end)
  end.

(** ** sw.js (partitions v1.1) *)

Module Sw.

Definition STATIC_CACHE := "tuba-static-v1.1".
Definition DYNAMIC_CACHE := "tuba-dynamic-v1.1".

Definition CDN_ASSETS : list string :=
  [ "https://cdn.jsdelivr.net/npm/@supabase/supabase-js@2";
    "https://cdnjs.cloudflare.com/ajax/libs/jspdf/2.5.1/jspdf.umd.min.js";
    "https://cdnjs.cloudflare.com/ajax/libs/xlsx/0.18.5/xlsx.full.min.js";
    "https://cdn.jsdelivr.net/npm/chart.js@4.4.0/dist/chart.umd.min.js" ].

Definition STATIC_ASSETS (h : Host) : list string :=
  List.app
    [ BASE_PATH h ++ "index.html";
      BASE_PATH h ++ "manifest.json";
      BASE_PATH h ++ "tuba-icon.png" ]
    CDN_ASSETS.

(** The promise handed to [event.waitUntil] by the install handler. *)
Definition install_handler (h : Host) : M unit :=
  try_catch
    (caches_open STATIC_CACHE ;;
     cache_addAll h STATIC_CACHE CacheDefault
       (map (request_of h) (STATIC_ASSETS h)) ;;
     skipWaiting)
    (fun _ => ret tt).

Definition activate_handler : M unit :=
  cacheNames <- caches_keys ;;
  for_each
    (fun cacheName =>
       if negb (cacheName =? STATIC_CACHE) && negb (cacheName =? DYNAMIC_CACHE)
       then caches_delete cacheName
       else ret tt)
    cacheNames ;;
  clients_claim.

Definition fetch_body (h : Host) (request : Request) : M Response :=
  (* App-shell navigation fallback *)
  early <- (if is_navigate request then
              try_catch
                (fresh <- fetch h request CacheDefault ;; ret (Some fresh))
                (fun _ => caches_match_url h (BASE_PATH h ++ "index.html"))
            else ret None) ;;
  match early with
  | Some r => ret r
  | None => cache_first DYNAMIC_CACHE h request
  end.

Definition fetch_handler (h : Host) (request : Request) (w : World)
  : Handled :=
  if negb (method request =? "GET") then pass_through w
  else respondWith (returns (fetch_body h request)) w.

End Sw.

(** ** The same-origin cache-first draft (partitions v1.0) *)

Module Part000.

Definition STATIC_CACHE := "tuba-static-v1.0".
Definition DYNAMIC_CACHE := "tuba-dynamic-v1.0".

Definition STATIC_ASSETS : list string :=
  [ "/"; "/index.html"; "/manifest.json"; "/tuba-icon.png";
    "/tuba-duplicate-cleaner.js" ].

Definition install_handler (h : Host) : M unit :=
  try_catch
    (caches_open STATIC_CACHE ;;
     cache_addAll h STATIC_CACHE CacheDefault
       (map (request_of h) STATIC_ASSETS) ;;
     skipWaiting)
    (fun _ => ret tt).

Definition activate_handler : M unit :=
  cacheNames <- caches_keys ;;
  for_each
    (fun cacheName =>
       if negb (cacheName =? STATIC_CACHE) && negb (cacheName =? DYNAMIC_CACHE)
       then caches_delete cacheName
       else ret tt)
    cacheNames ;;
  clients_claim.

Definition fetch_body (h : Host) (request : Request) : M (option Response) :=
  cachedResponse <- caches_match request ;;
  match cachedResponse with
  | Some c => ret (Some c)
  | None =>
      (* Not in cache, fetch from network *)
      try_catch
        (networkResponse <- fetch h request CacheDefault ;;
         (* Don't cache non-successful responses *)
         if negb (status networkResponse =? 200)%Z
            || negb (ResponseType_eqb (rtype networkResponse) Basic)
         then ret (Some networkResponse)
         else
           caches_open DYNAMIC_CACHE ;;
           cache_put DYNAMIC_CACHE request networkResponse ;;
           ret (Some networkResponse))
        (fun error =>
           (* request.headers.get('accept').includes('text/html') *)
           match accept request with
           | None => throw (NullDeref "includes")
           | Some a =>
               if JsString.includes a "text/html"
               then caches_match_url h "/index.html"
               else throw error
           end)
  end.

Definition fetch_handler (h : Host) (request : Request) (w : World)
  : Handled :=
  if origin (url request) =? location_origin h
  then respondWith (fetch_body h request) w
  else pass_through w.

End Part000.

(** ** The network-first draft (partitions v1.0.1) *)

Module Part001.

Definition CACHE_VERSION := "v1.0.1".
Definition STATIC_CACHE := "tuba-static-" ++ CACHE_VERSION.
Definition DYNAMIC_CACHE := "tuba-dynamic-" ++ CACHE_VERSION.

Definition STATIC_ASSETS : list string :=
  [ "./"; "./index.html"; "./tuba-icon.png" ].

Definition install_handler (h : Host) : M unit :=
  try_catch
    (caches_open STATIC_CACHE ;;
     for_each
       (fun url => try_catch (cache_add h STATIC_CACHE url) (fun _ => ret tt))
       STATIC_ASSETS ;;
     skipWaiting)
    (fun _ => ret tt).

Definition activate_handler : M unit :=
  cacheNames <- caches_keys ;;
  for_each
    (fun cacheName =>
       if JsString.startsWith cacheName "tuba-"
          && negb (cacheName =? STATIC_CACHE)
          && negb (cacheName =? DYNAMIC_CACHE)
       then caches_delete cacheName
       else ret tt)
    cacheNames ;;
  clients_claim.

Definition fetch_body (h : Host) (request : Request) : M (option Response) :=
  try_catch
    (response <- fetch h request CacheDefault ;;
     (* Don't cache non-successful responses *)
     if negb (status response =? 200)%Z
        || ResponseType_eqb (rtype response) Error
     then ret (Some response)
     else
       caches_open DYNAMIC_CACHE ;;
       cache_put DYNAMIC_CACHE request response ;;
       ret (Some response))
    (fun _ =>
       (* Network failed, try cache *)
       cachedResponse <- caches_match request ;;
       match cachedResponse with
       | Some c => ret (Some c)
       | None =>
           if mode request =? "navigate"
           then caches_match_url h "./index.html"
           else throw (JsError "No cached response found")
       end).

Definition fetch_handler (h : Host) (request : Request) (w : World)
  : Handled :=
  (* Skip non-GET requests *)
  if negb (method request =? "GET") then pass_through w
  (* Skip chrome-extension and non-http(s) requests *)
  else if negb (JsString.startsWith (href (url request)) "http")
  then pass_through w
  else respondWith (fetch_body h request) w.

(** [event.data] of a message: None when it is falsy; [msg_type] is None
    when [data.type] is missing or is not a string. *)
Record MessageData := mkMessageData {
  msg_type : option string
}.

Definition type_is (data : option MessageData) (t : string) : bool :=
  match data with
  | Some d =>
      match msg_type d with
      | Some t' => t' =? t
      | None => false
      end
  | None => false
  end.

Definition message_handler (data : option MessageData) : M unit :=
  (if type_is data "SKIP_WAITING" then skipWaiting else ret tt) ;;
  (if type_is data "CLEAR_CACHE" then
     cacheNames <- caches_keys ;;
     for_each
       (fun cacheName =>
          if JsString.startsWith cacheName "tuba-"
          then caches_delete cacheName
          else ret tt)
       cacheNames
   else ret tt).

End Part001.

(** ** The complete-offline draft (partitions v2.1.0) *)

Module Part002.

Definition CACHE_NAME := "tuba-v2.1.0".
Definition RUNTIME_CACHE := "tuba-runtime-v2.1.0".

Definition urlsToCache : list string :=
  [ "/"; "/index.html"; "/manifest.json"; "/tuba-icon.png";
    "https://cdn.jsdelivr.net/npm/@supabase/supabase-js@2";
    "https://cdnjs.cloudflare.com/ajax/libs/jspdf/2.5.1/jspdf.umd.min.js";
    "https://cdnjs.cloudflare.com/ajax/libs/xlsx/0.18.5/xlsx.full.min.js";
    "https://cdn.jsdelivr.net/npm/chart.js@4.4.0/dist/chart.umd.min.js" ].

Definition install_handler (h : Host) : M unit :=
  try_catch
    (caches_open CACHE_NAME ;;
     cache_addAll h CACHE_NAME CacheReload (map (request_of h) urlsToCache) ;;
     skipWaiting)
    (fun _ => ret tt).

Definition activate_handler : M unit :=
  cacheNames <- caches_keys ;;
  for_each
    (fun cacheName =>
       if negb (cacheName =? CACHE_NAME) && negb (cacheName =? RUNTIME_CACHE)
       then caches_delete cacheName
       else ret tt)
    cacheNames ;;
  clients_claim.

Definition quote : string := String (ascii_of_nat 34) EmptyString.

(** [new Response(JSON.stringify({ offline: true }),
      { headers: { 'Content-Type': 'application/json' } })] *)
Definition offline_json : Response :=
  mkResponse 200 EmptyString Default (Some "application/json")
    ("{" ++ quote ++ "offline" ++ quote ++ ":true}").

(** [new Response('Offline - resource not available', { status: 503, ... })] *)
Definition offline_text : Response :=
  mkResponse 503 "Service Unavailable" Default (Some "text/plain")
    "Offline - resource not available".

Definition supabase_body (h : Host) (request : Request)
  : M (option Response) :=
  try_catch
    (response <- fetch h request CacheDefault ;;
     caches_open RUNTIME_CACHE ;;
     cache_put RUNTIME_CACHE request response ;;
     ret (Some response))
    (fun _ =>
       (* If offline, return cached response *)
       cachedResponse <- caches_match request ;;
       match cachedResponse with
       | Some c => ret (Some c)
       | None => ret (Some offline_json)
       end).

Definition cache_first_body (h : Host) (request : Request)
  : M (option Response) :=
  let url := url request in
  cachedResponse <- caches_match request ;;
  match cachedResponse with
  | Some c => ret (Some c)
  | None =>
      try_catch
        (response <- fetch h request CacheDefault ;;
         (* Don't cache if not a valid response *)
         if negb (status response =? 200)%Z
            || ResponseType_eqb (rtype response) Error
         then ret (Some response)
         else
           let cacheName :=
             if origin url =? location_origin h then CACHE_NAME
             else RUNTIME_CACHE in
           caches_open cacheName ;;
           cache_put cacheName request response ;;
           ret (Some response))
        (fun _ =>
           (* Return offline page for navigation requests *)
           if mode request =? "navigate"
           then caches_match_url h "/index.html"
           else ret (Some offline_text))
  end.

(** The guard of the early return: a cross-origin request that is not
    from a CDN the app uses. *)
Definition skipped (h : Host) (url : URL) : bool :=
  negb (origin url =? location_origin h)
  && negb (JsString.includes (href url) "supabase")
  && negb (JsString.includes (href url) "cdnjs.cloudflare.com")
  && negb (JsString.includes (href url) "cdn.jsdelivr.net").

Definition fetch_handler (h : Host) (request : Request) (w : World)
  : Handled :=
  let url := url request in
  (* Skip cross-origin requests that aren't from CDNs we use *)
  if skipped h url then pass_through w
  (* For API requests to Supabase *)
  else if JsString.includes (href url) "supabase.co"
  then respondWith (supabase_body h request) w
  (* Cache-first strategy for all other requests *)
  else respondWith (cache_first_body h request) w.

End Part002.

(** ** The guarded draft with the Supabase bypass (partitions v1.2) *)

Module Part003.

Definition STATIC_CACHE := "tuba-static-v1.2".
Definition DYNAMIC_CACHE := "tuba-dynamic-v1.2".

Definition STATIC_ASSETS (h : Host) : list string :=
  [ BASE_PATH h ++ "index.html";
    BASE_PATH h;
    BASE_PATH h ++ "manifest.json";
    BASE_PATH h ++ "tuba-icon.png" ].

Definition install_handler (h : Host) : M unit :=
  try_catch
    (caches_open STATIC_CACHE ;;
     (* Cache essentials individually to avoid failing the whole install *)
     for_each
       (fun url => try_catch (cache_add h STATIC_CACHE url) (fun _ => ret tt))
       (STATIC_ASSETS h) ;;
     skipWaiting)
    (fun _ => ret tt).

(** [hasShell]: the shell document looked up in the new static partition *)
Definition has_shell (h : Host) : M (option Response) :=
  or_else (cache_match_url h STATIC_CACHE (BASE_PATH h ++ "index.html"))
    (or_else (cache_match_url h STATIC_CACHE "index.html")
       (cache_match_url h STATIC_CACHE (BASE_PATH h))).

Definition activate_handler (h : Host) : M unit :=
  try_catch
    (caches_open STATIC_CACHE ;;
     hasShell <- has_shell h ;;
     cacheNames <- caches_keys ;;
     for_each
       (fun cacheName =>
          (* Only delete old caches if essential shell is present *)
          if bool_decide (is_Some hasShell)
             && negb (cacheName =? STATIC_CACHE)
             && negb (cacheName =? DYNAMIC_CACHE)
          then caches_delete cacheName
          else ret tt)
       cacheNames ;;
     clients_claim)
    (fun _ => clients_claim).

(** The shell under any of its three keys, in the order of the lookups. *)
Definition shell_lookup (h : Host) : M (option Response) :=
  or_else (caches_match_url h (BASE_PATH h ++ "index.html"))
    (or_else (caches_match_url h (BASE_PATH h))
       (caches_match_url h "index.html")).

Definition fetch_body (h : Host) (request : Request) : M Response :=
  let url := url request in
  (* Always bypass caching for Supabase API requests *)
  let isSupabase := JsString.endsWith (hostname url) "supabase.co" in
  if isSupabase then
    try_catch
      (fresh <- fetch h request CacheNoStore ;; ret fresh)
      (fun _ => ret offline_503)
  else
    (* App-shell navigation: if offline, return cache immediately *)
    let isNavigate := is_navigate request in
    early <-
      (if isNavigate then
         let online :=
           match navigator_onLine h with Some b => b | None => true end in
         offlineShell <- (if negb online then shell_lookup h else ret None) ;;
         match offlineShell with
         | Some s => ret (Some s)
         | None =>
             try_catch
               (fresh <- fetch h request CacheDefault ;; ret (Some fresh))
               (fun _ => shell_lookup h)
         end
       else ret None) ;;
    match early with
    | Some r => ret r
    | None => cache_first DYNAMIC_CACHE h request
    end.

Definition fetch_handler (h : Host) (request : Request) (w : World)
  : Handled :=
  if negb (method request =? "GET") then pass_through w
  else respondWith (returns (fetch_body h request)) w.

End Part003.

(** ** The message channel of the v2.1.0 draft *)

Module Part002Message.

(** [event.data] of a message: None when it is falsy; [msg_type] is None
    when [data.type] is missing or is not a string, [urls] is None when
    [data.urls] is not a list of URL strings. *)
Record MessageData := mkMessageData {
  msg_type : option string;
  urls : option (list string)
}.

Definition type_is (data : option MessageData) (t : string) : bool :=
  match data with
  | Some d =>
      match msg_type d with
      | Some t' => t' =? t
      | None => false
      end
  | None => false
  end.

(** [event.data.urls] *)
Definition urls_of (data : option MessageData) : option (list string) :=
  match data with
  | Some d => urls d
  | None => None
  end.

(** The promise handed to [event.waitUntil]: its rejection is not caught. *)
Definition message_handler (h : Host) (data : option MessageData) : M unit :=
  (if type_is data "SKIP_WAITING" then skipWaiting else ret tt) ;;
  (if type_is data "CACHE_URLS" then
     caches_open Part002.RUNTIME_CACHE ;;
     match urls_of data with
     | Some us =>
         cache_addAll_batch h Part002.RUNTIME_CACHE CacheDefault
           (map (request_of h) us)
     | None => throw AddFailed
     end
   else ret tt).

End Part002Message.

(** ** Background sync: [syncOfflineData] and the listener that calls it
    (sw.js and the v1.0 draft; the v1.2 draft has the same code and a
    second listener, which is not modelled) *)

Module OfflineSync.

(** The body of [syncOfflineData], over the three data functions it calls. *)
Definition syncOfflineData_with {D : Type}
    (getOfflineData : M (list D)) (syncDataToServer : D -> M unit)
    (clearOfflineData : M unit) : M unit :=
  try_catch
    (offlineData <- getOfflineData ;;
     if (0 <? length offlineData)%nat then
       (* Sync data with server when online *)
       for_each syncDataToServer offlineData ;;
       (* Clear offline data after successful sync *)
       clearOfflineData
     else ret tt)
    (fun _ => ret tt).

(** The placeholder functions of the drafts. *)
Definition getOfflineData {D : Type} : M (list D) := ret [].
Definition syncDataToServer {D : Type} (data : D) : M unit := ret tt.
Definition clearOfflineData : M unit := ret tt.

Definition syncOfflineData : M unit :=
  syncOfflineData_with (@getOfflineData unit) syncDataToServer
    clearOfflineData.

(** The sync listener: [event.waitUntil(syncOfflineData())] on its tag. *)
Definition sync_handler (tag : string) : M unit :=
  if tag =? "background-sync" then syncOfflineData else ret tt.

End OfflineSync.

(** ** Relations between stores, used to state what a handler leaves alone *)

(** From [cs] to [cs'] no partition is lost, and no entry changes except
    under [key] in a partition of [names]. *)
Definition touches_only (names : list string) (key : string)
    (cs cs' : CacheStorage) : Prop :=
  (forall n, storage_has cs n = true -> storage_has cs' n = true)
  /\ (forall name k, ~ In name names \/ k <> key ->
        storage_lookup cs' name k = storage_lookup cs name k).

(** Every run of [m] is confined to [key] in the partitions [names]. *)
Definition confined {A} (names : list string) (key : string) (m : M A)
  : Prop :=
  forall w, touches_only names key (caches w) (caches (after (m w))).

(** Every run of [m] ends with a value: no exception leaves it. *)
Definition settles {A} (m : M A) : Prop :=
  forall w, exists a, result (m w) = Ok a.

(** Every host call a run of [m] issues passes the test [ok]. *)
Definition emits_only {A} (ok : Event -> bool) (m : M A) : Prop :=
  forall w, forallb ok (emitted (m w)) = true.

(** ** A concrete host, used to run the handlers *)

Module Demo.

Definition site : string := "https://tuba.example".

Definition page (path : string) : URL :=
  mkURL (site ++ path) "https:" site "tuba.example" path.

(** A resolver for the URL strings the drafts pass to the cache:
    absolute https URLs, absolute paths, and paths relative to [base]. *)
Definition resolve (base s : string) : URL :=
  if JsString.startsWith s "https://" then
    let rest := String.substring 8 (String.length s - 8) s in
    match String.index 0 "/" rest with
    | Some i =>
        let host := String.substring 0 i rest in
        mkURL s "https:" ("https://" ++ host) host
          (String.substring i (String.length rest - i) rest)
    | None => mkURL (s ++ "/") "https:" s rest "/"
    end
  else if JsString.startsWith s "/" then page s
  else if JsString.startsWith s "./"
  then page (base ++ String.substring 2 (String.length s - 2) s)
  else page (base ++ s).

Definition offline : nat -> Request -> CacheMode -> option Response :=
  fun _ _ _ => None.

Definition host (base : string)
    (network : nat -> Request -> CacheMode -> option Response) : Host :=
  mkHost site base (resolve base) (Some true) network.

Definition get (u : URL) (mode : string) (accept : option string) : Request :=
  mkRequest "GET" u mode accept.

Definition ok_page (content : string) : Response :=
  mkResponse 200 "OK" Basic (Some "text/html") content.

(** A store whose static partition holds the shell document. *)
Definition shell_key : string := site ++ "/index.html".

Definition with_shell (static : string) : World :=
  mkWorld [(static, {[ shell_key := ok_page "shell" ]})] 0.

Definition online (r : Response) : nat -> Request -> CacheMode -> option Response :=
  fun _ _ _ => Some r.

(** A navigation to the shell document. *)
Definition navigation : Request :=
  get (page "/index.html") "navigate" (Some "text/html,application/xhtml+xml").

(** A script of the page, and the same script with a query string. *)
Definition script : Request := get (page "/app.js") "no-cors" (Some "*/*").

(** A form post of the page. *)
Definition post : Request :=
  mkRequest "POST" (page "/api/save") "cors" (Some "*/*").

(** A script injected by a browser extension. *)
Definition extension_script : Request :=
  get (mkURL "chrome-extension://abcdef/inject.js" "chrome-extension:"
         "chrome-extension://abcdef" "abcdef" "/inject.js")
    "no-cors" (Some "*/*").

Definition supabase_url : URL :=
  mkURL "https://tuba.supabase.co/rest/v1/sales" "https:"
    "https://tuba.supabase.co" "tuba.supabase.co" "/rest/v1/sales".

(** A write and a read of the backend API. *)
Definition supabase_post : Request :=
  mkRequest "POST" supabase_url "cors" (Some "application/json").
Definition supabase_get : Request :=
  get supabase_url "cors" (Some "application/json").

(** A store that holds the script in the dynamic partition. *)
Definition with_script (dynamic : string) : World :=
  mkWorld [(dynamic, {[ href (url script) := ok_page "app" ]})] 0.

(** A store that holds the shell document, stale, under the navigation. *)
Definition fresh_page : Response := ok_page "fresh".

(** A library script of a CDN, requested by a script tag, and the opaque
    response the page gets for it. *)
Definition cdn_script : Request :=
  get (resolve "/" "https://cdn.jsdelivr.net/npm/chart.js@4.4.0/dist/chart.umd.min.js")
    "no-cors" (Some "*/*").
Definition opaque_response : Response := mkResponse 0 EmptyString Opaque None EmptyString.

(** The script with a cache-busting query string. *)
Definition versioned_script : Request :=
  get (mkURL (site ++ "/app.js?v=2") "https:" site "tuba.example" "/app.js")
    "no-cors" (Some "*/*").

(** A store shared with another application of the same origin. *)
Definition shared_store (static : string) : World :=
  mkWorld [ ("other-app-cache", {[ site ++ "/other/" := ok_page "other" ]});
            ("tuba-static-v0.9", {[ shell_key := ok_page "old shell" ]});
            (static, {[ shell_key := ok_page "shell" ]}) ] 0.

(** A request that carries no Accept header. *)
Definition bare : Request := get (page "/data.json") "cors" None.

End Demo.

(** ** More concrete inputs *)

Module Scenario.

(** A store whose static partition, created first, holds a stale copy of
    the script. *)
Definition stale_static (static : string) : World :=
  mkWorld [(static, {[ href (url Demo.script) := Demo.ok_page "stale" ]})] 0.

(** A host whose browser reports being offline. *)
Definition offline_browser : Host :=
  mkHost Demo.site "/" (Demo.resolve "/") (Some false) Demo.offline.

(** A network on which every request gets the same ok page. *)
Definition ok_network : nat -> Request -> CacheMode -> option Response :=
  Demo.online (Demo.ok_page "asset").

(** A request of a foreign origin. *)
Definition foreign : Request :=
  Demo.get (Demo.resolve "/" "https://ads.example/pixel.gif") "no-cors"
    (Some "image/*").

(** A CACHE_URLS message. *)
Definition cache_urls (us : list string) : option Part002Message.MessageData :=
  Some (Part002Message.mkMessageData (Some "CACHE_URLS") (Some us)).

End Scenario.

(** * Properties *)

(** Unfolds the monad and the host primitives of a handler run. *)
Ltac run_handler :=
  unfold respondWith, pass_through, returns, cache_first, or_else,
    bind, try_catch, ret, throw, emit, fetch, caches_match, caches_match_url,
    caches_open, cache_put, cache_match_url, caches_keys, caches_delete,
    skipWaiting, clients_claim; cbn.

(** ** Runs of the handlers *)

Lemma run_eta {A} (r : Run A) : mkRun (result r) (after r) (emitted r) = r.
Proof. now destruct r. Qed.

Lemma respond_returns (m : M Response) (w : World) :
  respondWith (returns m) w
  = mkHandled
      (RespondWith (match result (m w) with
                    | Ok r => Ok (Some r)
                    | Throw e => Throw e
                    end))
      (after (m w)) (emitted (m w)).
Proof.
  unfold respondWith, returns, bind, ret.
  destruct (m w) as [[r|e] a ev]; cbn; now rewrite ?app_nil_r.
Qed.

Lemma bind_ok {A B} (m : M A) (f : A -> M B) (w : World) (a : A) :
  result (m w) = Ok a ->
  bind m f w
  = mkRun (result (f a (after (m w)))) (after (f a (after (m w))))
      (emitted (m w) ++ emitted (f a (after (m w)))).
Proof.
  unfold bind. destruct (m w) as [[a'|e] w1 l1]; cbn; [|discriminate].
  intros [= ->]. now destruct (f a w1).
Qed.

Lemma bind_throw {A B} (m : M A) (f : A -> M B) (w : World) (e : Exn) :
  result (m w) = Throw e ->
  bind m f w = mkRun (Throw e) (after (m w)) (emitted (m w)).
Proof.
  unfold bind. destruct (m w) as [[a|e'] w1 l1]; cbn; [discriminate|].
  now intros [= ->].
Qed.

Lemma try_catch_ok {A} (m : M A) (k : Exn -> M A) (w : World) (a : A) :
  result (m w) = Ok a -> try_catch m k w = m w.
Proof.
  unfold try_catch. destruct (m w) as [[a'|e] w1 l1]; cbn; [easy|discriminate].
Qed.

Lemma try_catch_throw {A} (m : M A) (k : Exn -> M A) (w : World) (e : Exn) :
  result (m w) = Throw e ->
  try_catch m k w
  = mkRun (result (k e (after (m w)))) (after (k e (after (m w))))
      (emitted (m w) ++ emitted (k e (after (m w)))).
Proof.
  unfold try_catch. destruct (m w) as [[a|e'] w1 l1]; cbn; [discriminate|].
  intros [= ->]. now destruct (k e w1).
Qed.

Lemma bind_ret_l {A B} (a : A) (f : A -> M B) (w : World) :
  bind (ret a) f w = f a w.
Proof. unfold bind, ret. now destruct (f a w). Qed.

(** Off the navigation path sw.js runs its cache-first tail. *)
Lemma sw_body_not_navigate h req w :
  is_navigate req = false ->
  Sw.fetch_body h req w = cache_first Sw.DYNAMIC_CACHE h req w.
Proof.
  intros Hn. unfold Sw.fetch_body. rewrite Hn. now rewrite bind_ret_l.
Qed.

Lemma part003_body_not_navigate h req w :
  JsString.endsWith (hostname (url req)) "supabase.co" = false ->
  is_navigate req = false ->
  Part003.fetch_body h req w = cache_first Part003.DYNAMIC_CACHE h req w.
Proof.
  intros Hs Hn. unfold Part003.fetch_body. rewrite Hs, Hn.
  now rewrite bind_ret_l.
Qed.

(** ** Cache hits *)

Section CacheHit.

Variables (h : Host) (req : Request) (w : World) (r : Response).
Hypothesis Hget : method req = "GET".
Hypothesis Hhit : storage_match (caches w) (href (url req)) = Some r.

Lemma sw_cache_hit :
  is_navigate req = false ->
  Sw.fetch_handler h req w
  = mkHandled (RespondWith (Ok (Some r))) w [EvCachesMatch (href (url req))].
Proof using Hget Hhit.
  intros Hn. unfold Sw.fetch_handler, Sw.fetch_body.
  rewrite Hget, Hn. run_handler. now rewrite Hget, Hhit.
Qed.

Lemma part003_cache_hit :
  JsString.endsWith (hostname (url req)) "supabase.co" = false ->
  is_navigate req = false ->
  Part003.fetch_handler h req w
  = mkHandled (RespondWith (Ok (Some r))) w [EvCachesMatch (href (url req))].
Proof using Hget Hhit.
  intros Hs Hn. unfold Part003.fetch_handler, Part003.fetch_body.
  rewrite Hget, Hs, Hn. run_handler. now rewrite Hget, Hhit.
Qed.

Lemma part002_cache_hit :
  Part002.skipped h (url req) = false ->
  JsString.includes (href (url req)) "supabase.co" = false ->
  Part002.fetch_handler h req w
  = mkHandled (RespondWith (Ok (Some r))) w [EvCachesMatch (href (url req))].
Proof using Hget Hhit.
  intros Hk Hs. unfold Part002.fetch_handler, Part002.cache_first_body.
  rewrite Hk, Hs. run_handler. now rewrite Hget, Hhit.
Qed.

Lemma part000_cache_hit :
  origin (url req) = location_origin h ->
  Part000.fetch_handler h req w
  = mkHandled (RespondWith (Ok (Some r))) w [EvCachesMatch (href (url req))].
Proof using Hget Hhit.
  intros Ho. unfold Part000.fetch_handler, Part000.fetch_body.
  rewrite Ho, String.eqb_refl. run_handler. now rewrite Hget, Hhit.
Qed.

End CacheHit.

(** C1, as stated, fails on sw.js: a navigation whose document is cached
    and whose fetch succeeds is answered by that fetch, with the fresh
    response and not the cached one. *)
Lemma C1_navigation_is_network_first :
  let h := Demo.host "/" (Demo.online Demo.fresh_page) in
  let w := Demo.with_shell Sw.STATIC_CACHE in
  method Demo.navigation = "GET"
  /\ storage_match (caches w) (href (url Demo.navigation))
     = Some (Demo.ok_page "shell")
  /\ outcome (Sw.fetch_handler h Demo.navigation w)
     = RespondWith (Ok (Some Demo.fresh_page))
  /\ outcome (Sw.fetch_handler h Demo.navigation w)
     <> RespondWith (Ok (Some (Demo.ok_page "shell")))
  /\ calls (Sw.fetch_handler h Demo.navigation w)
     = [EvFetch Demo.navigation CacheDefault].
Proof.
  cbv zeta. repeat split; try reflexivity. vm_compute. discriminate.
Qed.

(** C1, amended: a GET request that is present in some partition is answered
    with the cached response by one cache lookup and no network fetch, on
    the cache-first path of each draft: in sw.js and the v1.2 draft when the
    request is not a navigation and does not accept HTML (and, in v1.2, is
    not for a supabase.co host); in the v2.1.0 draft when it is not skipped
    and its URL does not contain supabase.co; in the v1.0 draft when it is
    same-origin. *)
Theorem C1_cache_hit_served_without_fetch
    (h : Host) (req : Request) (w : World) (r : Response)
    (Hget : method req = "GET")
    (Hhit : storage_match (caches w) (href (url req)) = Some r) :
  let served :=
    mkHandled (RespondWith (Ok (Some r))) w [EvCachesMatch (href (url req))] in
  forallb (fun e => negb (is_fetch_event e)) (calls served) = true
  /\ (is_navigate req = false -> Sw.fetch_handler h req w = served)
  /\ (JsString.endsWith (hostname (url req)) "supabase.co" = false ->
      is_navigate req = false -> Part003.fetch_handler h req w = served)
  /\ (Part002.skipped h (url req) = false ->
      JsString.includes (href (url req)) "supabase.co" = false ->
      Part002.fetch_handler h req w = served)
  /\ (origin (url req) = location_origin h ->
      Part000.fetch_handler h req w = served).
Proof.
  cbv zeta. split; [reflexivity|].
  repeat split; intros.
  - now apply sw_cache_hit.
  - now apply part003_cache_hit.
  - now apply part002_cache_hit.
  - now apply part000_cache_hit.
Qed.

Lemma C1_witness :
  Sw.fetch_handler (Demo.host "/" Demo.offline) Demo.script
    (Demo.with_script Sw.DYNAMIC_CACHE)
  = mkHandled (RespondWith (Ok (Some (Demo.ok_page "app"))))
      (Demo.with_script Sw.DYNAMIC_CACHE)
      [EvCachesMatch (href (url Demo.script))].
Proof.
  apply (C1_cache_hit_served_without_fetch (Demo.host "/" Demo.offline)
           Demo.script (Demo.with_script Sw.DYNAMIC_CACHE) (Demo.ok_page "app")
           eq_refl eq_refl).
  reflexivity.
Defined.

(** ** Requests the handlers leave alone *)

Lemma sw_non_get h req w :
  method req <> "GET" -> Sw.fetch_handler h req w = pass_through w.
Proof.
  intros Hm. unfold Sw.fetch_handler.
  apply String.eqb_neq in Hm. now rewrite Hm.
Qed.

Lemma part001_non_get h req w :
  method req <> "GET" -> Part001.fetch_handler h req w = pass_through w.
Proof.
  intros Hm. unfold Part001.fetch_handler.
  apply String.eqb_neq in Hm. now rewrite Hm.
Qed.

Lemma part003_non_get h req w :
  method req <> "GET" -> Part003.fetch_handler h req w = pass_through w.
Proof.
  intros Hm. unfold Part003.fetch_handler.
  apply String.eqb_neq in Hm. now rewrite Hm.
Qed.

(** C5, as stated, fails on the v1.0 draft, which has no method guard: a
    same-origin POST is answered through respondWith, after a cache lookup,
    and its successful response makes the handler open (here: create) the
    dynamic partition. *)
Lemma C5_post_is_intercepted :
  let h := Demo.host "/" (Demo.online (Demo.ok_page "saved")) in
  let w := Demo.with_shell Part000.STATIC_CACHE in
  let run := Part000.fetch_handler h Demo.post w in
  method Demo.post <> "GET"
  /\ outcome run = RespondWith (Ok (Some (Demo.ok_page "saved")))
  /\ outcome run <> PassThrough
  /\ calls run
     = [ EvCachesMatch (href (url Demo.post));
         EvFetch Demo.post CacheDefault;
         EvCachesOpen Part000.DYNAMIC_CACHE;
         EvCachePut Part000.DYNAMIC_CACHE (href (url Demo.post))
           (Demo.ok_page "saved") ]
  /\ storage_keys (caches (world run))
     = [Part000.STATIC_CACHE; Part000.DYNAMIC_CACHE]
  /\ storage_keys (caches w) = [Part000.STATIC_CACHE].
Proof.
  cbv zeta. repeat split; try reflexivity; vm_compute; discriminate.
Qed.

(** The drafts without a method guard answer a same-origin request that
    is not a GET themselves. *)
Lemma unguarded_non_get h req w :
  method req <> "GET" ->
  origin (url req) = location_origin h ->
  (outcome (Part000.fetch_handler h req w) <> PassThrough
   /\ In (EvFetch req CacheDefault) (calls (Part000.fetch_handler h req w)))
  /\ (outcome (Part002.fetch_handler h req w) <> PassThrough
      /\ In (EvFetch req CacheDefault)
           (calls (Part002.fetch_handler h req w))).
Proof.
  intros Hm Ho. apply String.eqb_neq in Hm. split.
  - unfold Part000.fetch_handler, Part000.fetch_body.
    rewrite Ho, String.eqb_refl. run_handler. rewrite Hm. cbn.
    destruct (net h (fetches w) req CacheDefault) as [r|]; cbn.
    + destruct (negb (status r =? 200)%Z
                || negb (ResponseType_eqb (rtype r) Basic)); cbn;
        (split; [discriminate|tauto]).
    + destruct (accept req) as [a|]; cbn;
        [destruct (JsString.includes a "text/html"); cbn|];
        (split; [discriminate|tauto]).
  - unfold Part002.fetch_handler, Part002.skipped. cbv zeta.
    rewrite Ho, String.eqb_refl. cbn [negb andb].
    destruct (JsString.includes (href (url req)) "supabase.co").
    + unfold Part002.supabase_body. run_handler.
      destruct (net h (fetches w) req CacheDefault) as [r|]; cbn.
      * split; [discriminate|tauto].
      * rewrite Hm. cbn. split; [discriminate|tauto].
    + unfold Part002.cache_first_body. cbv zeta. run_handler.
      rewrite Hm. cbn.
      destruct (net h (fetches w) req CacheDefault) as [r|]; cbn.
      * destruct (negb (status r =? 200)%Z
                  || ResponseType_eqb (rtype r) Error); cbn;
          (split; [discriminate|tauto]).
      * destruct (mode req =? "navigate"); cbn;
          (split; [discriminate|tauto]).
Qed.

(** C5, amended: in the drafts that guard on the method (sw.js, the v1.0.1
    and the v1.2 drafts) a request that is not a GET is passed through: no
    respondWith, no host call, the store untouched.  The v1.0 and the
    v2.1.0 drafts have no method guard: a same-origin request that is not
    a GET is answered through respondWith, and the worker itself fetches
    it. *)
Theorem C5_non_get_passes_through
    (h : Host) (req : Request) (w : World) (Hm : method req <> "GET") :
  Sw.fetch_handler h req w = mkHandled PassThrough w []
  /\ Part001.fetch_handler h req w = mkHandled PassThrough w []
  /\ Part003.fetch_handler h req w = mkHandled PassThrough w []
  /\ (origin (url req) = location_origin h ->
      (outcome (Part000.fetch_handler h req w) <> PassThrough
       /\ In (EvFetch req CacheDefault)
            (calls (Part000.fetch_handler h req w)))
      /\ (outcome (Part002.fetch_handler h req w) <> PassThrough
          /\ In (EvFetch req CacheDefault)
               (calls (Part002.fetch_handler h req w)))).
Proof.
  split; [now apply sw_non_get|].
  split; [now apply part001_non_get|].
  split; [now apply part003_non_get|].
  intros Ho. now apply unguarded_non_get.
Qed.

Lemma C5_witness :
  Sw.fetch_handler (Demo.host "/" Demo.offline) Demo.post
    (Demo.with_shell Sw.STATIC_CACHE)
  = mkHandled PassThrough (Demo.with_shell Sw.STATIC_CACHE) [].
Proof.
  apply (C5_non_get_passes_through (Demo.host "/" Demo.offline) Demo.post
           (Demo.with_shell Sw.STATIC_CACHE)).
  vm_compute. discriminate.
Defined.

(** C6, as stated, fails on sw.js, which has no scheme guard: a GET for a
    browser-extension URL is answered through respondWith, after a cache
    lookup and a fetch. *)
Lemma C6_extension_request_is_intercepted :
  let h := Demo.host "/" Demo.offline in
  let w := Demo.with_shell Sw.STATIC_CACHE in
  let run := Sw.fetch_handler h Demo.extension_script w in
  http_scheme (url Demo.extension_script) = false
  /\ outcome run = RespondWith (Ok (Some offline_503))
  /\ outcome run <> PassThrough
  /\ calls run
     = [ EvCachesMatch (href (url Demo.extension_script));
         EvFetch Demo.extension_script CacheDefault ].
Proof.
  cbv zeta. repeat split; try reflexivity. vm_compute. discriminate.
Qed.

(** C6, amended: in the network-first (v1.0.1) draft a request whose URL
    does not start with http is passed through: no respondWith, no host
    call, the store untouched. *)
Theorem C6_non_http_passes_through
    (h : Host) (req : Request) (w : World)
    (Hs : JsString.startsWith (href (url req)) "http" = false) :
  Part001.fetch_handler h req w = mkHandled PassThrough w [].
Proof.
  unfold Part001.fetch_handler. rewrite Hs.
  now destruct (negb (method req =? "GET")).
Qed.

Lemma C6_witness :
  Part001.fetch_handler (Demo.host "/" Demo.offline) Demo.extension_script
    (Demo.with_shell Part001.STATIC_CACHE)
  = mkHandled PassThrough (Demo.with_shell Part001.STATIC_CACHE) [].
Proof.
  apply (C6_non_http_passes_through (Demo.host "/" Demo.offline)
           Demo.extension_script (Demo.with_shell Part001.STATIC_CACHE)).
  reflexivity.
Defined.

(** ** The Supabase bypass of the v1.2 draft *)

(** C7, as stated, fails on requests that are not GETs: a POST to the API
    host is passed through, the worker issues no fetch for it, with
    no-store or otherwise. *)
Lemma C7_post_is_not_fetched :
  let h := Demo.host "/" (Demo.online (Demo.ok_page "saved")) in
  let w := Demo.with_shell Part003.STATIC_CACHE in
  let run := Part003.fetch_handler h Demo.supabase_post w in
  JsString.endsWith (hostname (url Demo.supabase_post)) "supabase.co" = true
  /\ outcome run = PassThrough
  /\ calls run = []
  /\ ~ In (EvFetch Demo.supabase_post CacheNoStore) (calls run).
Proof.
  cbv zeta. repeat split; try reflexivity. vm_compute. tauto.
Qed.

(** C7, amended: in the v1.2 draft every GET request to a host that ends in
    supabase.co is answered by exactly one fetch with cache no-store and no
    cache call: the network's response is returned and left unstored, and a
    synthetic 503 is returned when the fetch fails. *)
Theorem C7_supabase_get_bypasses_cache
    (h : Host) (req : Request) (w : World)
    (Hget : method req = "GET")
    (Hhost : JsString.endsWith (hostname (url req)) "supabase.co" = true) :
  let run := Part003.fetch_handler h req w in
  outcome run
  = RespondWith
      (Ok (Some (match net h (fetches w) req CacheNoStore with
                 | Some r => r
                 | None => offline_503
                 end)))
  /\ calls run = [EvFetch req CacheNoStore]
  /\ existsb is_cache_event (calls run) = false
  /\ caches (world run) = caches w.
Proof.
  cbv zeta. unfold Part003.fetch_handler, Part003.fetch_body.
  rewrite Hget, Hhost. run_handler.
  destruct (net h (fetches w) req CacheNoStore); cbn; repeat split.
Qed.

(** The v2.1.0 draft treats the API host the other way round: a URL that
    contains supabase.co is fetched first, its response is put into the
    runtime partition, and the cache is looked up when the fetch fails. *)
Lemma part002_supabase_is_cached :
  let w := Demo.with_shell Part002.CACHE_NAME in
  let up := Part002.fetch_handler
              (Demo.host "/" (Demo.online (Demo.ok_page "rows")))
              Demo.supabase_get w in
  let down := Part002.fetch_handler (Demo.host "/" Demo.offline)
                Demo.supabase_get (world up) in
  storage_lookup (caches (world up)) Part002.RUNTIME_CACHE
    (href (url Demo.supabase_get)) = Some (Demo.ok_page "rows")
  /\ outcome down = RespondWith (Ok (Some (Demo.ok_page "rows")))
  /\ calls down
     = [ EvFetch Demo.supabase_get CacheDefault;
         EvCachesMatch (href (url Demo.supabase_get)) ].
Proof. cbv zeta. repeat split; vm_compute; reflexivity. Qed.

Lemma C7_witness :
  outcome (Part003.fetch_handler (Demo.host "/" Demo.offline) Demo.supabase_get
             (Demo.with_shell Part003.STATIC_CACHE))
  = RespondWith (Ok (Some offline_503)).
Proof.
  apply (C7_supabase_get_bypasses_cache (Demo.host "/" Demo.offline)
           Demo.supabase_get (Demo.with_shell Part003.STATIC_CACHE)
           eq_refl eq_refl).
Defined.

(** ** The missing Accept header in the v1.0 draft *)

(** C10: in the v1.0 draft, a same-origin GET request without an Accept
    header that is not cached and whose fetch fails makes the promise given
    to respondWith reject with the type error of reading [includes] of
    null; no response is produced.  With an Accept header the handler never
    rejects with that error. *)
Theorem C10_missing_accept_rejects
    (h : Host) (req : Request) (w : World)
    (Hget : method req = "GET")
    (Horigin : origin (url req) = location_origin h)
    (Hmiss : storage_match (caches w) (href (url req)) = None)
    (Hfail : net h (fetches w) req CacheDefault = None) :
  (accept req = None ->
   outcome (Part000.fetch_handler h req w)
   = RespondWith (Throw (NullDeref "includes")))
  /\ (forall a p, accept req = Some a ->
      outcome (Part000.fetch_handler h req w)
      <> RespondWith (Throw (NullDeref p))).
Proof.
  unfold Part000.fetch_handler, Part000.fetch_body.
  rewrite Horigin, String.eqb_refl. run_handler.
  rewrite Hget, Hmiss. cbn. rewrite Hfail. cbn.
  split.
  - intros Ha. now rewrite Ha.
  - intros a p Ha. rewrite Ha.
    destruct (JsString.includes a "text/html"); cbn; discriminate.
Qed.

Lemma C10_witness :
  outcome (Part000.fetch_handler (Demo.host "/" Demo.offline) Demo.bare
             (Demo.with_shell Part000.STATIC_CACHE))
  = RespondWith (Throw (NullDeref "includes")).
Proof.
  apply (C10_missing_accept_rejects (Demo.host "/" Demo.offline) Demo.bare
           (Demo.with_shell Part000.STATIC_CACHE) eq_refl eq_refl eq_refl
           eq_refl).
  reflexivity.
Defined.

(** ** Cache misses: what is stored *)

Lemma storage_has_cons (n : string) (c : Cache) (cs : CacheStorage) name :
  storage_has ((n, c) :: cs) name = (n =? name) || storage_has cs name.
Proof.
  unfold storage_has. cbn. now rewrite (String.eqb_sym name n).
Qed.

Lemma storage_has_open cs name : storage_has (storage_open cs name) name = true.
Proof.
  unfold storage_open. destruct (storage_has cs name) eqn:E; [exact E|].
  unfold storage_has, storage_keys. rewrite map_app, existsb_app. cbn.
  now rewrite String.eqb_refl, orb_true_r.
Qed.

Lemma storage_lookup_put cs name key r :
  storage_has cs name = true ->
  storage_lookup (storage_put cs name key r) name key = Some r.
Proof.
  unfold storage_lookup.
  induction cs as [|[n c] cs IH]; [discriminate|].
  rewrite storage_has_cons. cbn. destruct (n =? name) eqn:E; cbn; rewrite E.
  - intros _. apply lookup_insert_eq.
  - exact IH.
Qed.

Lemma storage_lookup_put_open cs name key r :
  storage_lookup (storage_put (storage_open cs name) name key r) name key
  = Some r.
Proof. apply storage_lookup_put, storage_has_open. Qed.

Lemma type_in_sw (t : ResponseType) :
  type_in [Basic; Cors; Opaque] t = false <->
  t <> Basic /\ t <> Cors /\ t <> Opaque.
Proof. destruct t; vm_compute; intuition congruence. Qed.

Section CacheMiss.

Variables (h : Host) (req : Request) (w : World) (r : Response).
Hypothesis Hget : method req = "GET".
Hypothesis Hhttp : http_scheme (url req) = true.
Hypothesis Hmiss : storage_match (caches w) (href (url req)) = None.
Hypothesis Hnet : net h (fetches w) req CacheDefault = Some r.

Lemma put_accepts_iff : put_accepts req r = negb (status r =? 206)%Z.
Proof using Hget Hhttp.
  unfold put_accepts. unfold http_scheme in Hhttp. now rewrite Hget, Hhttp.
Qed.

(** The run of the shared cache-first tail on a miss. *)
Lemma cache_first_miss dyn :
  let run := cache_first dyn h req w in
  result run = Ok r
  /\ ((status r = 200%Z
       \/ (rtype r = Cors \/ rtype r = Opaque) /\ status r <> 206%Z) ->
      storage_lookup (caches (after run)) dyn (href (url req)) = Some r)
  /\ (status r <> 200%Z -> rtype r <> Basic -> rtype r <> Cors ->
      rtype r <> Opaque ->
      after run = mkWorld (caches w) (S (fetches w))
      /\ emitted run
         = [EvCachesMatch (href (url req)); EvFetch req CacheDefault]).
Proof using Hget Hhttp Hmiss Hnet.
  cbv zeta. run_handler. rewrite Hget, Hmiss. cbn. rewrite Hnet. cbn.
  destruct ((status r =? 200)%Z || type_in [Basic; Cors; Opaque] (rtype r))
    eqn:Hc; cbn.
  - split; [reflexivity|]. split.
    + intros Hs. rewrite put_accepts_iff.
      assert (Hn : (status r =? 206)%Z = false)
        by (apply Z.eqb_neq; destruct Hs as [->|[_ Hs]]; [lia|exact Hs]).
      rewrite Hn. cbn. apply storage_lookup_put_open.
    + intros Hs Hb Hc' Ho. apply orb_true_iff in Hc as [Hc|Hc].
      * apply Z.eqb_eq in Hc. contradiction.
      * assert (type_in [Basic; Cors; Opaque] (rtype r) = false)
          by now apply type_in_sw.
        congruence.
  - split; [reflexivity|]. apply orb_false_iff in Hc as [Hs Ht]. split.
    + apply Z.eqb_neq in Hs. apply type_in_sw in Ht.
      intros [?|[[?|?] _]]; tauto.
    + intros _ _ _ _. split; reflexivity.
Qed.

(** The run of the v1.0 draft on a miss. *)
Lemma part000_miss :
  origin (url req) = location_origin h ->
  let run := Part000.fetch_handler h req w in
  outcome run = RespondWith (Ok (Some r))
  /\ (status r = 200%Z /\ rtype r = Basic ->
      storage_lookup (caches (world run)) Part000.DYNAMIC_CACHE
        (href (url req)) = Some r)
  /\ (status r <> 200%Z \/ rtype r <> Basic ->
      world run = mkWorld (caches w) (S (fetches w))
      /\ calls run
         = [EvCachesMatch (href (url req)); EvFetch req CacheDefault]).
Proof using Hget Hhttp Hmiss Hnet.
  intros Ho. cbv zeta. unfold Part000.fetch_handler, Part000.fetch_body.
  rewrite Ho, String.eqb_refl. run_handler.
  rewrite Hget, Hmiss. cbn. rewrite Hnet. cbn.
  destruct (negb (status r =? 200)%Z
            || negb (ResponseType_eqb (rtype r) Basic)) eqn:Hc; cbn.
  - split; [reflexivity|]. split; [|split; reflexivity].
    intros [Hs Ht]. rewrite Hs, Ht in Hc. discriminate.
  - split; [reflexivity|].
    apply orb_false_iff in Hc as [Hs Ht].
    apply negb_false_iff in Hs, Ht. apply Z.eqb_eq in Hs.
    split.
    + intros _. rewrite put_accepts_iff, Hs. cbn.
      apply storage_lookup_put_open.
    + intros [Hn|Hn]; [contradiction|].
      destruct (rtype r); cbn in Ht; congruence.
Qed.

End CacheMiss.

(** C2, as stated, fails on sw.js: the opaque response of a no-cors request
    to a CDN has status 0, is not a 200, and is stored into the dynamic
    partition. *)
Lemma C2_opaque_response_is_stored :
  let h := Demo.host "/" (Demo.online Demo.opaque_response) in
  let w := Demo.with_shell Sw.STATIC_CACHE in
  let run := Sw.fetch_handler h Demo.cdn_script w in
  method Demo.cdn_script = "GET"
  /\ storage_match (caches w) (href (url Demo.cdn_script)) = None
  /\ status Demo.opaque_response <> 200%Z
  /\ outcome run = RespondWith (Ok (Some Demo.opaque_response))
  /\ In (EvCachePut Sw.DYNAMIC_CACHE (href (url Demo.cdn_script))
           Demo.opaque_response) (calls run)
  /\ storage_lookup (caches (world run)) Sw.DYNAMIC_CACHE
       (href (url Demo.cdn_script)) = Some Demo.opaque_response.
Proof.
  cbv zeta. repeat split; try reflexivity.
  - vm_compute. discriminate.
  - vm_compute. tauto.
Qed.

(** C2, amended: on a cache miss of a GET request over http(s) the
    interceptor fetches and returns the network's response.  The v1.0 draft
    stores it into the dynamic partition exactly when its status is 200 and
    its type is basic.  sw.js and the v1.2 draft (on their cache-first
    path) store it when its status is 200, and also when its type is cors
    or opaque and it is not partial (206); they do not store it, and issue
    no put, when its status is not 200 and its type is none of basic, cors,
    opaque. *)
Theorem C2_miss_fetches_and_stores
    (h : Host) (req : Request) (w : World) (r : Response)
    (Hget : method req = "GET")
    (Hhttp : http_scheme (url req) = true)
    (Hmiss : storage_match (caches w) (href (url req)) = None)
    (Hnet : net h (fetches w) req CacheDefault = Some r) :
  let key := href (url req) in
  let design_stores :=
    status r = 200%Z
    \/ (rtype r = Cors \/ rtype r = Opaque) /\ status r <> 206%Z in
  let design_skips :=
    status r <> 200%Z /\ rtype r <> Basic /\ rtype r <> Cors
    /\ rtype r <> Opaque in
  let untouched (run : Handled) :=
    world run = mkWorld (caches w) (S (fetches w))
    /\ calls run = [EvCachesMatch key; EvFetch req CacheDefault] in
  (origin (url req) = location_origin h ->
   let run := Part000.fetch_handler h req w in
   outcome run = RespondWith (Ok (Some r))
   /\ (status r = 200%Z /\ rtype r = Basic ->
       storage_lookup (caches (world run)) Part000.DYNAMIC_CACHE key = Some r)
   /\ (status r <> 200%Z \/ rtype r <> Basic -> untouched run))
  /\ (is_navigate req = false ->
      let run := Sw.fetch_handler h req w in
      outcome run = RespondWith (Ok (Some r))
      /\ (design_stores ->
          storage_lookup (caches (world run)) Sw.DYNAMIC_CACHE key = Some r)
      /\ (design_skips -> untouched run))
  /\ (is_navigate req = false ->
      JsString.endsWith (hostname (url req)) "supabase.co" = false ->
      let run := Part003.fetch_handler h req w in
      outcome run = RespondWith (Ok (Some r))
      /\ (design_stores ->
          storage_lookup (caches (world run)) Part003.DYNAMIC_CACHE key
          = Some r)
      /\ (design_skips -> untouched run)).
Proof.
  cbv zeta. split; [|split].
  - intros Ho. now apply part000_miss.
  - intros Hn.
    destruct (cache_first_miss h req w r Hget Hhttp Hmiss Hnet Sw.DYNAMIC_CACHE)
      as (Hr & Hs & Hk).
    unfold Sw.fetch_handler. rewrite Hget. cbn [negb].
    rewrite respond_returns. cbn [outcome world calls].
    rewrite (sw_body_not_navigate h req w Hn), Hr.
    split; [reflexivity|]. split; [exact Hs|].
    intros (H1 & H2 & H3 & H4). exact (Hk H1 H2 H3 H4).
  - intros Hn Hsb.
    destruct (cache_first_miss h req w r Hget Hhttp Hmiss Hnet
                Part003.DYNAMIC_CACHE) as (Hr & Hs & Hk).
    unfold Part003.fetch_handler. rewrite Hget. cbn [negb].
    rewrite respond_returns. cbn [outcome world calls].
    rewrite (part003_body_not_navigate h req w Hsb Hn), Hr.
    split; [reflexivity|]. split; [exact Hs|].
    intros (H1 & H2 & H3 & H4). exact (Hk H1 H2 H3 H4).
Qed.

Lemma C2_witness :
  storage_lookup
    (caches (world (Sw.fetch_handler
                      (Demo.host "/" (Demo.online (Demo.ok_page "app")))
                      Demo.script (Demo.with_shell Sw.STATIC_CACHE))))
    Sw.DYNAMIC_CACHE (href (url Demo.script))
  = Some (Demo.ok_page "app").
Proof.
  destruct (C2_miss_fetches_and_stores
              (Demo.host "/" (Demo.online (Demo.ok_page "app")))
              Demo.script (Demo.with_shell Sw.STATIC_CACHE)
              (Demo.ok_page "app") eq_refl eq_refl eq_refl eq_refl)
    as (_ & Hsw & _).
  destruct (Hsw eq_refl) as (_ & Hstored & _).
  apply Hstored. left. reflexivity.
Defined.

(** ** Network failure *)

(** C4, as stated, fails on the v1.0 draft: for a request that does not
    accept HTML the fetch error is thrown again, the promise given to
    respondWith rejects and no 503 is produced. *)
Lemma C4_error_is_propagated :
  let h := Demo.host "/" Demo.offline in
  let w := Demo.with_shell Part000.STATIC_CACHE in
  let run := Part000.fetch_handler h Demo.script w in
  method Demo.script = "GET"
  /\ net h (fetches w) Demo.script CacheDefault = None
  /\ is_navigate Demo.script = false
  /\ outcome run = RespondWith (Throw FetchFailed)
  /\ outcome run <> RespondWith (Ok (Some offline_503)).
Proof.
  cbv zeta. repeat split; try reflexivity. vm_compute. discriminate.
Qed.

(** On sw.js the claim fails as well: a same-origin request that is not
    cached under its full URL is answered from the entry of its path. *)
Lemma sw_path_fallback_is_served :
  let h := Demo.host "/" Demo.offline in
  let w := Demo.with_script Sw.DYNAMIC_CACHE in
  let run := Sw.fetch_handler h Demo.versioned_script w in
  storage_match (caches w) (href (url Demo.versioned_script)) = None
  /\ is_navigate Demo.versioned_script = false
  /\ outcome run = RespondWith (Ok (Some (Demo.ok_page "app"))).
Proof. cbv zeta. repeat split; reflexivity. Qed.

(** C4, amended: when every fetch of a GET request fails, sw.js never lets
    the error through: it answers a navigation or HTML-accepting request
    with the cached app shell when that is present; otherwise with the
    response cached for the request; otherwise, for a same-origin request,
    with the response cached for its path; otherwise with a synthetic
    empty 503.  The v1.0 draft answers an uncached same-origin request that
    accepts HTML with the cached /index.html (undefined when absent) and
    throws the fetch error again for every other Accept header. *)
Theorem C4_network_failure_fallback
    (h : Host) (req : Request) (w : World)
    (Hget : method req = "GET")
    (Hdown : forall n, net h n req CacheDefault = None) :
  let cs := caches w in
  let shell :=
    if is_navigate req
    then storage_match cs (href (parse_url h (BASE_PATH h ++ "index.html")))
    else None in
  let path :=
    if origin (url req) =? location_origin h
    then storage_match cs
           (href (parse_url h
                    (BASE_PATH h
                       ++ JsString.replace (pathname (url req)) (BASE_PATH h) EmptyString)))
    else None in
  (outcome (Sw.fetch_handler h req w)
   = RespondWith
       (Ok (Some (match shell, storage_match cs (href (url req)), path with
                  | Some s, _, _ => s
                  | None, Some c, _ => c
                  | None, None, Some p => p
                  | None, None, None => offline_503
                  end)))
   /\ caches (world (Sw.fetch_handler h req w)) = cs)
  /\ (origin (url req) = location_origin h ->
      storage_match cs (href (url req)) = None ->
      forall a, accept req = Some a ->
      outcome (Part000.fetch_handler h req w)
      = RespondWith
          (if JsString.includes a "text/html"
           then Ok (storage_match cs (href (parse_url h "/index.html")))
           else Throw FetchFailed)).
Proof.
  cbv zeta. split.
  - unfold Sw.fetch_handler, Sw.fetch_body.
    rewrite Hget. run_handler.
    destruct (is_navigate req) eqn:Hn;
      repeat progress (cbn; rewrite ?Hdown, ?Hget).
    + destruct (storage_match (caches w)
                  (href (parse_url h (BASE_PATH h ++ "index.html")))) eqn:Hs;
        repeat progress (cbn; rewrite ?Hdown, ?Hget); [now split|].
      destruct (storage_match (caches w) (href (url req))) eqn:Hc;
        repeat progress (cbn; rewrite ?Hdown, ?Hget, ?Hn, ?Hs); [now split|].
      destruct (origin (url req) =? location_origin h); cbn;
        [destruct (storage_match (caches w)
                     (href (parse_url h
                              (BASE_PATH h
                                 ++ JsString.replace (pathname (url req))
                                      (BASE_PATH h) EmptyString))))|];
        cbn; now split.
    + destruct (storage_match (caches w) (href (url req))) eqn:Hc;
        repeat progress (cbn; rewrite ?Hdown, ?Hget, ?Hn); [now split|].
      destruct (origin (url req) =? location_origin h); cbn;
        [destruct (storage_match (caches w)
                     (href (parse_url h
                              (BASE_PATH h
                                 ++ JsString.replace (pathname (url req))
                                      (BASE_PATH h) EmptyString))))|];
        cbn; now split.
  - intros Ho Hmiss a Ha.
    unfold Part000.fetch_handler, Part000.fetch_body.
    rewrite Ho, String.eqb_refl. run_handler.
    rewrite Hget, Hmiss. cbn. rewrite Hdown. cbn. rewrite Ha.
    now destruct (JsString.includes a "text/html").
Qed.

Lemma C4_witness :
  outcome (Sw.fetch_handler (Demo.host "/" Demo.offline) Demo.navigation
             (Demo.with_shell Sw.STATIC_CACHE))
  = RespondWith (Ok (Some (Demo.ok_page "shell"))).
Proof.
  apply (C4_network_failure_fallback (Demo.host "/" Demo.offline)
           Demo.navigation (Demo.with_shell Sw.STATIC_CACHE) eq_refl
           (fun _ => eq_refl)).
Defined.

(** ** Deleting partitions *)

Lemma filter_twice {A} (f g : A -> bool) (l : list A) :
  List.filter g (List.filter f l) = List.filter (fun x => f x && g x) l.
Proof.
  induction l as [|x l IH]; cbn; [reflexivity|].
  destruct (f x); cbn; [destruct (g x)|]; now rewrite IH.
Qed.

(** Deleting the names [ds] one after the other keeps the partitions that
    are not named in [ds], in their order. *)
Lemma storage_delete_all (ds : list string) (cs : CacheStorage) :
  fold_left storage_delete ds cs
  = List.filter (fun p => negb (existsb (String.eqb (fst p)) ds)) cs.
Proof.
  revert cs. induction ds as [|d ds IH]; intros cs; cbn.
  - induction cs as [|p cs IHc]; cbn; [reflexivity|]. now rewrite <- IHc.
  - rewrite IH. unfold storage_delete. rewrite filter_twice.
    apply filter_ext. intros p. now rewrite negb_orb.
Qed.

(** The loop of the activate and message handlers. *)
Lemma for_each_delete (P : string -> bool) (ns : list string) (w : World) :
  for_each (fun n => if P n then caches_delete n else ret tt) ns w
  = mkRun (Ok tt)
      (mkWorld (fold_left storage_delete (List.filter P ns) (caches w))
         (fetches w))
      (map EvCachesDelete (List.filter P ns)).
Proof.
  revert w. induction ns as [|n ns IH]; intros [cs k]; cbn; [reflexivity|].
  unfold bind. destruct (P n); cbn; now rewrite IH.
Qed.

(** Run on the names of the store itself, the loop keeps the partitions
    whose name fails the test. *)
Lemma delete_matching (P : string -> bool) (cs : CacheStorage) :
  fold_left storage_delete (List.filter P (storage_keys cs)) cs
  = List.filter (fun p => negb (P (fst p))) cs.
Proof.
  rewrite storage_delete_all. apply filter_ext_in. intros p Hp. f_equal.
  destruct (P (fst p)) eqn:HP.
  - apply existsb_exists. exists (fst p). split; [|apply String.eqb_refl].
    apply filter_In. split; [|exact HP]. now apply in_map.
  - destruct (existsb _ _) eqn:E; [|reflexivity].
    apply existsb_exists in E as (x & Hx & Hxe).
    apply String.eqb_eq in Hxe. subst x.
    apply filter_In in Hx as [_ Hx]. congruence.
Qed.

Lemma sw_activate (w : World) :
  Sw.activate_handler w
  = mkRun (Ok tt)
      (mkWorld
         (List.filter
            (fun p => (fst p =? Sw.STATIC_CACHE) || (fst p =? Sw.DYNAMIC_CACHE))
            (caches w))
         (fetches w))
      (EvCachesKeys
         :: map EvCachesDelete
              (List.filter
                 (fun n => negb (n =? Sw.STATIC_CACHE)
                           && negb (n =? Sw.DYNAMIC_CACHE))
                 (storage_keys (caches w)))
         ++ [EvClientsClaim]).
Proof.
  unfold Sw.activate_handler, bind at 1, caches_keys.
  cbn [result after emitted]. unfold bind at 1.
  rewrite for_each_delete. cbn [result after emitted caches fetches].
  unfold clients_claim, emit. cbn [result after emitted].
  rewrite delete_matching. f_equal. f_equal.
  apply filter_ext. intros p. now rewrite negb_andb, !negb_involutive.
Qed.

Lemma part001_activate (w : World) :
  let stale n :=
    JsString.startsWith n "tuba-"
    && negb (n =? Part001.STATIC_CACHE) && negb (n =? Part001.DYNAMIC_CACHE) in
  Part001.activate_handler w
  = mkRun (Ok tt)
      (mkWorld (List.filter (fun p => negb (stale (fst p))) (caches w))
         (fetches w))
      (EvCachesKeys
         :: map EvCachesDelete (List.filter stale (storage_keys (caches w)))
         ++ [EvClientsClaim]).
Proof.
  cbv zeta. unfold Part001.activate_handler, bind at 1, caches_keys.
  cbn [result after emitted]. unfold bind at 1.
  rewrite for_each_delete. cbn [result after emitted caches fetches].
  unfold clients_claim, emit. cbn [result after emitted].
  now rewrite delete_matching.
Qed.

Lemma storage_get_has cs name c :
  storage_get cs name = Some c -> storage_has cs name = true.
Proof.
  induction cs as [|[n c'] cs IH]; [discriminate|].
  rewrite storage_has_cons. cbn [storage_get].
  destruct (n =? name); [reflexivity|exact IH].
Qed.

Lemma storage_lookup_has cs name key r :
  storage_lookup cs name key = Some r -> storage_has cs name = true.
Proof.
  unfold storage_lookup. destruct (storage_get cs name) eqn:E; [|discriminate].
  intros _. eapply storage_get_has, E.
Qed.

(** The shell lookup of the v1.2 activation reads the store and leaves it. *)
Lemma part003_has_shell (h : Host) (w : World) :
  let look s := storage_lookup (caches w) Part003.STATIC_CACHE
                  (href (parse_url h s)) in
  result (Part003.has_shell h w)
  = Ok (match look (BASE_PATH h ++ "index.html") with
        | Some r => Some r
        | None =>
            match look "index.html" with
            | Some r => Some r
            | None => look (BASE_PATH h)
            end
        end)
  /\ after (Part003.has_shell h w) = w.
Proof.
  cbv zeta. unfold Part003.has_shell. run_handler.
  destruct (storage_lookup _ _ (href (parse_url h (BASE_PATH h ++ "index.html"))));
    cbn; [now split|].
  destruct (storage_lookup _ _ (href (parse_url h "index.html")));
    cbn; now split.
Qed.

Lemma part003_activate (h : Host) (w : World) (shell : Response) :
  result (Part003.has_shell h w) = Ok (Some shell) ->
  result (Part003.activate_handler h w) = Ok tt
  /\ after (Part003.activate_handler h w)
     = mkWorld
         (List.filter
            (fun p => (fst p =? Part003.STATIC_CACHE)
                      || (fst p =? Part003.DYNAMIC_CACHE))
            (caches w))
         (fetches w).
Proof.
  intros Hshell.
  destruct (part003_has_shell h w) as [Hr Ha].
  assert (Hopen : storage_open (caches w) Part003.STATIC_CACHE = caches w).
  { rewrite Hr in Hshell. unfold storage_open.
    enough (storage_has (caches w) Part003.STATIC_CACHE = true) as -> by easy.
    destruct (storage_lookup (caches w) Part003.STATIC_CACHE
                (href (parse_url h (BASE_PATH h ++ "index.html")))) eqn:E1;
      [eapply storage_lookup_has, E1|].
    destruct (storage_lookup (caches w) Part003.STATIC_CACHE
                (href (parse_url h "index.html"))) eqn:E2;
      [eapply storage_lookup_has, E2|].
    injection Hshell as Hshell. eapply storage_lookup_has, Hshell. }
  assert (Hw : after (caches_open Part003.STATIC_CACHE w) = w).
  { unfold caches_open. cbn [after]. rewrite Hopen. now destruct w. }
  assert (Hd : bool_decide (is_Some (Some shell)) = true)
    by (apply bool_decide_eq_true; eauto).
  unfold Part003.activate_handler.
  match goal with
  | |- context [try_catch ?b ?k w] => set (body := b); set (handler := k)
  end.
  assert (Hbody :
    result (body w) = Ok tt
    /\ after (body w)
       = mkWorld
           (List.filter
              (fun p => (fst p =? Part003.STATIC_CACHE)
                        || (fst p =? Part003.DYNAMIC_CACHE))
              (caches w))
           (fetches w)).
  { subst body.
    rewrite (bind_ok (caches_open Part003.STATIC_CACHE) _ w tt eq_refl).
    cbn [result after]. rewrite Hw.
    rewrite (bind_ok (Part003.has_shell h) _ w (Some shell) Hshell).
    cbn [result after].
    rewrite Ha.
    rewrite (bind_ok caches_keys _ w (storage_keys (caches w)) eq_refl).
    cbn [result after]. change (after (caches_keys w)) with w.
    rewrite Hd. cbn [andb].
    pose proof (for_each_delete
                  (fun n => negb (n =? Part003.STATIC_CACHE)
                            && negb (n =? Part003.DYNAMIC_CACHE))
                  (storage_keys (caches w)) w) as Hloop.
    rewrite (bind_ok _ _ w tt (f_equal result Hloop)).
    cbn [result after]. rewrite Hloop. cbn [result after].
    unfold clients_claim, emit. cbn [result after].
    rewrite delete_matching. split; [reflexivity|]. f_equal.
    apply filter_ext. intros p. now rewrite negb_andb, !negb_involutive. }
  destruct Hbody as [Hres Haft].
  rewrite (try_catch_ok _ _ _ _ Hres). now split.
Qed.

Lemma filter_current_keys (a b : string) (cs : CacheStorage) (n : string) :
  In n (storage_keys
          (List.filter (fun p => (fst p =? a) || (fst p =? b)) cs)) ->
  n = a \/ n = b.
Proof.
  unfold storage_keys. intros Hn.
  apply in_map_iff in Hn as (p & <- & Hp).
  apply filter_In in Hp as [_ Hp].
  apply orb_true_iff in Hp as [Hp|Hp]; apply String.eqb_eq in Hp; auto.
Qed.

(** C3, as stated, fails on the v1.0.1 draft, which only sweeps partitions
    of its own prefix: the partition of another application of the origin
    differs from both current names and is still there after activation. *)
Lemma C3_foreign_partition_survives :
  let run := Part001.activate_handler
               (Demo.shared_store Part001.STATIC_CACHE) in
  "other-app-cache" <> Part001.STATIC_CACHE
  /\ "other-app-cache" <> Part001.DYNAMIC_CACHE
  /\ In "other-app-cache" (storage_keys (caches (after run)))
  /\ storage_keys (caches (after run))
     = ["other-app-cache"; Part001.STATIC_CACHE].
Proof.
  cbv zeta. repeat split; try (vm_compute; discriminate).
  vm_compute. tauto.
Qed.

(** C3, amended: activation in sw.js, and in the v1.2 draft when its shell
    guard passes, keeps exactly the partitions named by the current static
    or dynamic name, with their content, and deletes every other one, so
    every partition left has one of the two names.  Activation in the
    v1.0.1 draft deletes exactly the partitions whose name starts with
    tuba- and is neither current name; it keeps the two current ones and
    every partition without the prefix. *)
Theorem C3_activation_sweeps_stale_partitions (h : Host) (w : World) :
  let current a b (p : string * Cache) := (fst p =? a) || (fst p =? b) in
  let left_by (run : Run unit) := caches (after run) in
  (left_by (Sw.activate_handler w)
   = List.filter (current Sw.STATIC_CACHE Sw.DYNAMIC_CACHE) (caches w)
   /\ forall n, In n (storage_keys (left_by (Sw.activate_handler w))) ->
                n = Sw.STATIC_CACHE \/ n = Sw.DYNAMIC_CACHE)
  /\ (forall shell, result (Part003.has_shell h w) = Ok (Some shell) ->
      left_by (Part003.activate_handler h w)
      = List.filter (current Part003.STATIC_CACHE Part003.DYNAMIC_CACHE)
          (caches w)
      /\ forall n,
           In n (storage_keys (left_by (Part003.activate_handler h w))) ->
           n = Part003.STATIC_CACHE \/ n = Part003.DYNAMIC_CACHE)
  /\ left_by (Part001.activate_handler w)
     = List.filter
         (fun p => negb (JsString.startsWith (fst p) "tuba-")
                   || current Part001.STATIC_CACHE Part001.DYNAMIC_CACHE p)
         (caches w).
Proof.
  cbv zeta. split; [|split].
  - rewrite sw_activate. cbn [after caches]. split; [reflexivity|].
    apply filter_current_keys.
  - intros shell Hshell.
    destruct (part003_activate h w shell Hshell) as [_ Ha].
    rewrite Ha. cbn [caches]. split; [reflexivity|].
    apply filter_current_keys.
  - pose proof (part001_activate w) as Hr. cbv zeta in Hr. rewrite Hr.
    cbn [after caches]. apply filter_ext. intros p.
    now rewrite !negb_andb, !negb_involutive, orb_assoc.
Qed.

Lemma C3_witness :
  storage_keys
    (caches (after (Part003.activate_handler (Demo.host "/" Demo.offline)
                      (Demo.shared_store Part003.STATIC_CACHE))))
  = [Part003.STATIC_CACHE].
Proof.
  destruct (C3_activation_sweeps_stale_partitions
              (Demo.host "/" Demo.offline)
              (Demo.shared_store Part003.STATIC_CACHE)) as (_ & Hguarded & _).
  destruct (Hguarded (Demo.ok_page "shell") eq_refl) as [Hleft _].
  rewrite Hleft. reflexivity.
Defined.

(** ** The message channel of the v1.0.1 draft *)

(** C9: a CLEAR_CACHE message leaves exactly the partitions whose name does
    not start with tuba-, untouched and in their order; a message of any
    other type leaves every partition as it is, and one that is not
    SKIP_WAITING either issues no host call at all. *)
Theorem C9_clear_cache_message (data : option Part001.MessageData) (w : World) :
  caches (after (Part001.message_handler
                   (Some (Part001.mkMessageData (Some "CLEAR_CACHE"))) w))
  = List.filter (fun p => negb (JsString.startsWith (fst p) "tuba-")) (caches w)
  /\ (Part001.type_is data "CLEAR_CACHE" = false ->
      caches (after (Part001.message_handler data w)) = caches w)
  /\ (Part001.type_is data "CLEAR_CACHE" = false ->
      Part001.type_is data "SKIP_WAITING" = false ->
      Part001.message_handler data w = mkRun (Ok tt) w []).
Proof.
  split; [|split].
  - unfold Part001.message_handler. cbn [Part001.type_is Part001.msg_type].
    cbn [String.eqb Ascii.eqb Bool.eqb andb].
    unfold bind at 1, ret at 1. cbn [result after emitted].
    unfold bind at 1, caches_keys. cbn [result after emitted].
    rewrite for_each_delete. cbn [result after emitted caches fetches app].
    apply delete_matching.
  - intros Hc. unfold Part001.message_handler. rewrite Hc.
    destruct (Part001.type_is data "SKIP_WAITING"); reflexivity.
  - intros Hc Hs. unfold Part001.message_handler. rewrite Hc, Hs.
    reflexivity.
Qed.

Lemma C9_witness :
  Part001.message_handler (Some (Part001.mkMessageData (Some "REFRESH")))
    (Demo.shared_store Part001.STATIC_CACHE)
  = mkRun (Ok tt) (Demo.shared_store Part001.STATIC_CACHE) [].
Proof.
  apply (C9_clear_cache_message
           (Some (Part001.mkMessageData (Some "REFRESH")))
           (Demo.shared_store Part001.STATIC_CACHE));
    reflexivity.
Defined.

(** ** Install *)

(** The fetch half of addAll writes nothing and only fetches. *)
Lemma add_fetch_all_frame h cm reqs w :
  caches (after (add_fetch_all h cm reqs w)) = caches w
  /\ forallb is_fetch_event (emitted (add_fetch_all h cm reqs w)) = true.
Proof.
  revert w. induction reqs as [|req reqs IH]; intros w;
    cbn [add_fetch_all]; [now split|].
  unfold add_fetch. unfold bind, fetch, ret, throw.
  destruct (http_scheme (url req)); cbn; [|now split].
  destruct (net h (fetches w) req cm) as [r|]; cbn; [|now split].
  destruct (response_ok r && negb (status r =? 206)%Z); cbn; [|now split].
  specialize (IH (mkWorld (caches w) (S (fetches w)))).
  destruct (add_fetch_all h cm reqs _) as [[rs|e] w1 l1]; cbn in *;
    rewrite ?app_nil_r; exact IH.
Qed.

(** It rejects as soon as one of the requests cannot be fetched. *)
Lemma add_fetch_all_fails h cm reqs req w :
  In req reqs ->
  (forall n, net h n req cm = None) ->
  exists e, result (add_fetch_all h cm reqs w) = Throw e.
Proof.
  intros Hin Hdown. revert w.
  induction reqs as [|req' reqs IH]; intros w; [contradiction|].
  cbn [add_fetch_all]. unfold add_fetch. unfold bind, fetch, ret, throw.
  destruct (http_scheme (url req')); cbn; [|eauto].
  destruct (net h (fetches w) req' cm) as [r|] eqn:Hnet; cbn; [|eauto].
  destruct Hin as [->|Hin]; [rewrite Hdown in Hnet; discriminate|].
  destruct (response_ok r && negb (status r =? 206)%Z); cbn; [|eauto].
  destruct (IH Hin (mkWorld (caches w) (S (fetches w)))) as [e He].
  destruct (add_fetch_all h cm reqs _) as [[rs|e'] w1 l1]; cbn in *;
    [discriminate|eauto].
Qed.

(** The install step of the addAll drafts, for any partition and list. *)
Lemma add_all_install_fails h name cm urls url w :
  In url urls ->
  (forall n, net h n (request_of h url) cm = None) ->
  let run :=
    try_catch
      (caches_open name ;;
       cache_addAll h name cm (map (request_of h) urls) ;;
       skipWaiting)
      (fun _ => ret tt) w in
  result run = Ok tt
  /\ caches (after run) = storage_open (caches w) name
  /\ ~ In EvSkipWaiting (emitted run).
Proof.
  intros Hin Hdown. cbv zeta.
  set (w1 := mkWorld (storage_open (caches w) name) (fetches w)).
  set (fetched := add_fetch_all h cm (map (request_of h) urls) w1).
  destruct (add_fetch_all_fails h cm (map (request_of h) urls)
              (request_of h url) w1 (in_map _ _ _ Hin) Hdown) as [e He].
  destruct (add_fetch_all_frame h cm (map (request_of h) urls) w1)
    as [Hc Hev].
  fold fetched in He, Hc, Hev.
  assert (Hadd : cache_addAll h name cm (map (request_of h) urls) w1
                 = mkRun (Throw e) (after fetched) (emitted fetched))
    by (unfold cache_addAll; apply bind_throw, He).
  assert (Hrest : (cache_addAll h name cm (map (request_of h) urls) ;;
                   skipWaiting) w1
                  = mkRun (Throw e) (after fetched) (emitted fetched))
    by (rewrite (bind_throw _ _ _ e); rewrite Hadd; reflexivity).
  assert (Hbody : (caches_open name ;;
                   cache_addAll h name cm (map (request_of h) urls) ;;
                   skipWaiting) w
                  = mkRun (Throw e) (after fetched)
                      (EvCachesOpen name :: emitted fetched)).
  { rewrite (bind_ok (caches_open name) _ w tt eq_refl).
    change (after (caches_open name w)) with w1. now rewrite Hrest. }
  rewrite (try_catch_throw _ _ _ e) by now rewrite Hbody.
  rewrite Hbody. cbn [result after emitted ret].
  split; [reflexivity|]. split; [exact Hc|].
  rewrite app_nil_r. intros [Hk|Hk]; [discriminate|].
  rewrite forallb_forall in Hev. now apply Hev in Hk.
Qed.

(** C8, as stated, fails on sw.js: when an asset cannot be fetched the
    error is caught at the end of the chain, and the promise handed to
    waitUntil fulfils, so the install is not aborted. *)
Lemma C8_failed_install_still_fulfils :
  let h := Demo.host "/" Demo.offline in
  let w := mkWorld [] 0 in
  net h 0 (request_of h (BASE_PATH h ++ "index.html")) CacheDefault = None
  /\ result (Sw.install_handler h w) = Ok tt
  /\ (forall e, result (Sw.install_handler h w) <> Throw e)
  /\ emitted (Sw.install_handler h w)
     = [ EvCachesOpen Sw.STATIC_CACHE;
         EvFetch (request_of h (BASE_PATH h ++ "index.html")) CacheDefault ].
Proof.
  cbv zeta. repeat split; try reflexivity. intros e. vm_compute. discriminate.
Qed.

Lemma storage_keys_put cs name key r :
  storage_keys (storage_put cs name key r) = storage_keys cs.
Proof.
  unfold storage_keys.
  induction cs as [|[n c] cs IH]; cbn; [reflexivity|].
  destruct (n =? name); cbn; [reflexivity|now rewrite IH].
Qed.

Lemma storage_has_put cs name key r n :
  storage_has (storage_put cs name key r) n = storage_has cs n.
Proof. unfold storage_has. now rewrite storage_keys_put. Qed.

(** A put never removes an entry of the partition. *)
Lemma storage_lookup_put_mono cs name key r k :
  is_Some (storage_lookup cs name k) ->
  is_Some (storage_lookup (storage_put cs name key r) name k).
Proof.
  unfold storage_lookup.
  induction cs as [|[n c] cs IH]; cbn; [easy|].
  destruct (n =? name) eqn:E; cbn; rewrite E; [|exact IH].
  intros Hk. rewrite lookup_insert. now destruct (decide (key = k)).
Qed.

(** One asset of the per-asset install: the failure of [cache.add] is
    caught, the store is left as it was or gains the asset. *)
Lemma add_caught h name s w :
  let req := request_of h s in
  let run := try_catch (cache_add h name s) (fun _ => ret tt) w in
  result run = Ok tt
  /\ (caches (after run) = caches w
      \/ exists r, caches (after run)
                   = storage_put (caches w) name (href (url req)) r)
  /\ (forall r, http_scheme (url req) = true ->
        net h (fetches w) req CacheDefault = Some r ->
        response_ok r = true -> status r <> 206%Z ->
        caches (after run) = storage_put (caches w) name (href (url req)) r).
Proof.
  cbv zeta. unfold cache_add, cache_addAll. cbn [add_fetch_all].
  unfold add_fetch.
  destruct (http_scheme (url (request_of h s))) eqn:Hh.
  2:{ run_handler. split; [reflexivity|]. split; [now left|]. discriminate. }
  cbn [negb]. run_handler.
  destruct (net h (fetches w) (request_of h s) CacheDefault) as [r|] eqn:Hn;
    cbn.
  2:{ split; [reflexivity|]. split; [now left|]. discriminate. }
  destruct (response_ok r) eqn:Hok; cbn.
  2:{ split; [reflexivity|]. split; [now left|].
      intros r' _ [= <-]. congruence. }
  destruct (status r =? 206)%Z eqn:Hp; cbn.
  { split; [reflexivity|]. split; [now left|].
    intros r' _ [= <-] _ Hne. apply Z.eqb_eq in Hp. contradiction. }
  unfold put_accepts. cbn [method request_of url].
  unfold http_scheme in Hh. cbn [request_of url] in Hh. rewrite Hh, Hp. cbn.
  split; [reflexivity|]. split; [right; eauto|].
  now intros r' _ [= <-] _ _.
Qed.

(** The loop of the per-asset install. *)
Lemma add_each_caught h name urls w :
  let run :=
    for_each (fun url => try_catch (cache_add h name url) (fun _ => ret tt))
      urls w in
  result run = Ok tt
  /\ (storage_has (caches w) name = true ->
      storage_has (caches (after run)) name = true)
  /\ (forall k, is_Some (storage_lookup (caches w) name k) ->
        is_Some (storage_lookup (caches (after run)) name k))
  /\ (forall url r,
        In url urls ->
        storage_has (caches w) name = true ->
        http_scheme (parse_url h url) = true ->
        (forall n, net h n (request_of h url) CacheDefault = Some r) ->
        response_ok r = true -> status r <> 206%Z ->
        is_Some (storage_lookup (caches (after run)) name
                   (href (parse_url h url)))).
Proof.
  cbv zeta. revert w. induction urls as [|u urls IH]; intros w.
  { cbn. repeat split; try easy. }
  cbn [for_each].
  destruct (add_caught h name u w) as (Hr & Hc & Hgood). cbv zeta in *.
  rewrite (bind_ok _ _ _ _ Hr). cbn [result after emitted].
  set (w1 := after (try_catch (cache_add h name u) (fun _ => ret tt) w)) in *.
  destruct (IH w1) as (IHr & IHhas & IHmono & IHgood).
  assert (Hhas : storage_has (caches w) name = true ->
                 storage_has (caches w1) name = true).
  { destruct Hc as [->|[r ->]]; [easy|]. now rewrite storage_has_put. }
  assert (Hmono : forall k, is_Some (storage_lookup (caches w) name k) ->
                            is_Some (storage_lookup (caches w1) name k)).
  { intros k. destruct Hc as [->|[r ->]]; [easy|].
    apply storage_lookup_put_mono. }
  split; [exact IHr|]. split; [auto|]. split; [auto|].
  intros url r [<-|Hin] Hs Hh Hnet Hok Hne.
  - apply IHmono. rewrite (Hgood r Hh (Hnet _) Hok Hne).
    cbn [request_of url]. rewrite storage_lookup_put; [eauto|exact Hs].
  - eapply IHgood; eauto.
Qed.

(** The install step of the per-asset drafts, for any partition and list. *)
Lemma add_each_install h name urls w :
  let run :=
    try_catch
      (caches_open name ;;
       for_each (fun url => try_catch (cache_add h name url) (fun _ => ret tt))
         urls ;;
       skipWaiting)
      (fun _ => ret tt) w in
  result run = Ok tt
  /\ In EvSkipWaiting (emitted run)
  /\ (forall url r,
        In url urls ->
        http_scheme (parse_url h url) = true ->
        (forall n, net h n (request_of h url) CacheDefault = Some r) ->
        response_ok r = true -> status r <> 206%Z ->
        is_Some (storage_lookup (caches (after run)) name
                   (href (parse_url h url)))).
Proof.
  cbv zeta.
  set (w1 := mkWorld (storage_open (caches w) name) (fetches w)).
  set (each := for_each
                 (fun url => try_catch (cache_add h name url) (fun _ => ret tt))
                 urls).
  destruct (add_each_caught h name urls w1) as (Hr & _ & _ & Hgood).
  cbv zeta in *. fold each in Hr, Hgood.
  assert (Hbody : (caches_open name ;; each ;; skipWaiting) w
                  = mkRun (Ok tt) (after (each w1))
                      (EvCachesOpen name
                         :: emitted (each w1) ++ [EvSkipWaiting])).
  { rewrite (bind_ok (caches_open name) _ w tt eq_refl).
    change (after (caches_open name w)) with w1.
    now rewrite (bind_ok each _ w1 tt Hr). }
  rewrite (try_catch_ok _ _ _ tt) by now rewrite Hbody.
  rewrite Hbody. cbn [result after emitted].
  split; [reflexivity|]. split.
  - right. apply in_or_app. right. now left.
  - intros url r Hin Hh Hnet Hok Hne.
    eapply Hgood; eauto. apply storage_has_open.
Qed.

(** C8, amended: in the addAll drafts (sw.js, v1.0, v2.1.0), when an asset
    of the list cannot be fetched the install step writes nothing into the
    static partition and does not call skipWaiting, but the error is caught
    and the promise handed to waitUntil fulfils: the install is not
    aborted.  In the per-asset drafts (v1.0.1, v1.2) the failure of an
    asset is caught on its own: the promise fulfils, skipWaiting is always
    called, and every asset that can be fetched is in the static partition
    afterwards. *)
Theorem C8_install_failure_policy (h : Host) (w : World) :
  let unreachable cm url := forall n, net h n (request_of h url) cm = None in
  let nothing_cached name (run : Run unit) :=
    result run = Ok tt
    /\ caches (after run) = storage_open (caches w) name
    /\ ~ In EvSkipWaiting (emitted run) in
  let best_effort name urls (run : Run unit) :=
    result run = Ok tt
    /\ In EvSkipWaiting (emitted run)
    /\ forall url r,
         In url urls ->
         http_scheme (parse_url h url) = true ->
         (forall n, net h n (request_of h url) CacheDefault = Some r) ->
         response_ok r = true -> status r <> 206%Z ->
         is_Some (storage_lookup (caches (after run)) name
                    (href (parse_url h url))) in
  (forall url, In url (Sw.STATIC_ASSETS h) -> unreachable CacheDefault url ->
     nothing_cached Sw.STATIC_CACHE (Sw.install_handler h w))
  /\ (forall url, In url Part000.STATIC_ASSETS -> unreachable CacheDefault url ->
        nothing_cached Part000.STATIC_CACHE (Part000.install_handler h w))
  /\ (forall url, In url Part002.urlsToCache -> unreachable CacheReload url ->
        nothing_cached Part002.CACHE_NAME (Part002.install_handler h w))
  /\ best_effort Part001.STATIC_CACHE Part001.STATIC_ASSETS
       (Part001.install_handler h w)
  /\ best_effort Part003.STATIC_CACHE (Part003.STATIC_ASSETS h)
       (Part003.install_handler h w).
Proof.
  cbv zeta. repeat apply conj.
  - intros url Hin Hdown.
    exact (add_all_install_fails h Sw.STATIC_CACHE CacheDefault
             (Sw.STATIC_ASSETS h) url w Hin Hdown).
  - intros url Hin Hdown.
    exact (add_all_install_fails h Part000.STATIC_CACHE CacheDefault
             Part000.STATIC_ASSETS url w Hin Hdown).
  - intros url Hin Hdown.
    exact (add_all_install_fails h Part002.CACHE_NAME CacheReload
             Part002.urlsToCache url w Hin Hdown).
  - apply (add_each_install h Part001.STATIC_CACHE Part001.STATIC_ASSETS w).
  - apply (add_each_install h Part001.STATIC_CACHE Part001.STATIC_ASSETS w).
  - apply (add_each_install h Part001.STATIC_CACHE Part001.STATIC_ASSETS w).
  - apply (add_each_install h Part003.STATIC_CACHE (Part003.STATIC_ASSETS h) w).
  - apply (add_each_install h Part003.STATIC_CACHE (Part003.STATIC_ASSETS h) w).
  - apply (add_each_install h Part003.STATIC_CACHE (Part003.STATIC_ASSETS h) w).
Qed.

Lemma C8_witness :
  result (Sw.install_handler (Demo.host "/" Demo.offline) (mkWorld [] 0))
  = Ok tt
  /\ caches (after (Sw.install_handler (Demo.host "/" Demo.offline)
                      (mkWorld [] 0)))
     = [(Sw.STATIC_CACHE, ∅)].
Proof.
  destruct (C8_install_failure_policy (Demo.host "/" Demo.offline)
              (mkWorld [] 0)) as (Hsw & _).
  destruct (Hsw "/index.html" (or_introl eq_refl) (fun _ => eq_refl))
    as (Hr & Hc & _).
  split; [exact Hr | exact Hc].
Defined.

(** * Further properties of the drafts *)

(** ** What an interception leaves alone *)

Lemma touches_only_refl names key cs : touches_only names key cs cs.
Proof. split; auto. Qed.

Lemma touches_only_trans names key cs1 cs2 cs3 :
  touches_only names key cs1 cs2 -> touches_only names key cs2 cs3 ->
  touches_only names key cs1 cs3.
Proof.
  intros [H1 L1] [H2 L2]. split; [auto|].
  intros name k Hk. now rewrite L2, L1.
Qed.

Lemma storage_has_app (cs cs' : CacheStorage) name :
  storage_has (cs ++ cs')%list name
  = storage_has cs name || storage_has cs' name.
Proof. unfold storage_has, storage_keys. now rewrite map_app, existsb_app. Qed.

Lemma storage_lookup_open cs name name' k :
  storage_lookup (storage_open cs name) name' k = storage_lookup cs name' k.
Proof.
  unfold storage_open. destruct (storage_has cs name); [reflexivity|].
  unfold storage_lookup.
  induction cs as [|[n c] cs IH]; cbn.
  - destruct (name =? name'); [apply lookup_empty|reflexivity].
  - destruct (n =? name'); [reflexivity|exact IH].
Qed.

Lemma storage_has_open_mono cs name n :
  storage_has cs n = true -> storage_has (storage_open cs name) n = true.
Proof.
  unfold storage_open. destruct (storage_has cs name); [easy|].
  intros Hn. now rewrite storage_has_app, Hn.
Qed.

Lemma storage_lookup_put_other cs name key r name' k :
  name' <> name \/ k <> key ->
  storage_lookup (storage_put cs name key r) name' k
  = storage_lookup cs name' k.
Proof.
  intros Hk. unfold storage_lookup.
  induction cs as [|[n c] cs IH]; cbn; [reflexivity|].
  destruct (n =? name) eqn:En; cbn.
  - destruct (n =? name') eqn:En'; [|reflexivity].
    apply String.eqb_eq in En, En'. subst.
    destruct Hk as [Hk|Hk]; [contradiction|].
    apply lookup_insert_ne. congruence.
  - destruct (n =? name'); [reflexivity|exact IH].
Qed.

Section Confined.

Variables (names : list string) (key : string).

Lemma confined_ret {A} (a : A) : confined names key (ret a).
Proof. intros w. apply touches_only_refl. Qed.

Lemma confined_throw {A} (e : Exn) : confined names key (@throw A e).
Proof. intros w. apply touches_only_refl. Qed.

Lemma confined_bind {A B} (m : M A) (f : A -> M B) :
  confined names key m -> (forall a, confined names key (f a)) ->
  confined names key (bind m f).
Proof.
  intros Hm Hf w. specialize (Hm w). unfold bind.
  destruct (m w) as [[a|e] w1 l1]; cbn in Hm; [|exact Hm].
  specialize (Hf a w1). destruct (f a w1) as [r w2 l2]. cbn in *.
  eapply touches_only_trans; eauto.
Qed.

Lemma confined_try_catch {A} (m : M A) (k : Exn -> M A) :
  confined names key m -> (forall e, confined names key (k e)) ->
  confined names key (try_catch m k).
Proof.
  intros Hm Hk w. specialize (Hm w). unfold try_catch.
  destruct (m w) as [[a|e] w1 l1]; cbn in Hm; [exact Hm|].
  specialize (Hk e w1). destruct (k e w1) as [r w2 l2]. cbn in *.
  eapply touches_only_trans; eauto.
Qed.

Lemma confined_fetch h req cm : confined names key (fetch h req cm).
Proof.
  intros w. unfold fetch.
  destruct (net h (fetches w) req cm); apply touches_only_refl.
Qed.

Lemma confined_caches_match req : confined names key (caches_match req).
Proof. intros w. apply touches_only_refl. Qed.

Lemma confined_caches_match_url h s :
  confined names key (caches_match_url h s).
Proof. intros w. apply touches_only_refl. Qed.

Lemma confined_caches_open name : confined names key (caches_open name).
Proof.
  intros w. split; cbn [caches_open after caches].
  - intros n. apply storage_has_open_mono.
  - intros name' k _. apply storage_lookup_open.
Qed.

Lemma confined_cache_put name req r :
  In name names -> key = href (url req) ->
  confined names key (cache_put name req r).
Proof.
  intros Hin -> w. unfold cache_put. cbn [after].
  destruct (put_accepts req r); [|apply touches_only_refl].
  split; cbn [caches].
  - intros n. now rewrite storage_has_put.
  - intros name' k Hk. apply storage_lookup_put_other.
    destruct Hk as [Hk|Hk]; [left|now right]. congruence.
Qed.

End Confined.

(** Walks a handler body, one primitive at a time. *)
Ltac confine :=
  repeat first
    [ apply confined_ret | apply confined_throw | apply confined_fetch
    | apply confined_caches_match | apply confined_caches_match_url
    | apply confined_caches_open
    | apply confined_cache_put; [cbn; tauto | reflexivity]
    | apply confined_bind; [|intros ?]
    | apply confined_try_catch; [|intros ?]
    | match goal with
      | |- confined _ _ (if ?c then _ else _) => destruct c
      | |- confined _ _ (match ?x with _ => _ end) => destruct x
      end ].

Lemma cache_first_confined dyn h req :
  confined [dyn] (href (url req)) (cache_first dyn h req).
Proof. unfold cache_first. cbv zeta. confine. Qed.

Lemma sw_body_confined h req :
  confined [Sw.DYNAMIC_CACHE] (href (url req)) (Sw.fetch_body h req).
Proof. unfold Sw.fetch_body. confine. Qed.

Lemma part003_body_confined h req :
  confined [Part003.DYNAMIC_CACHE] (href (url req)) (Part003.fetch_body h req).
Proof.
  unfold Part003.fetch_body, Part003.shell_lookup, or_else. cbv zeta.
  confine.
Qed.

Lemma part000_body_confined h req :
  confined [Part000.DYNAMIC_CACHE] (href (url req)) (Part000.fetch_body h req).
Proof. unfold Part000.fetch_body. confine. Qed.

Lemma part001_body_confined h req :
  confined [Part001.DYNAMIC_CACHE] (href (url req)) (Part001.fetch_body h req).
Proof. unfold Part001.fetch_body. confine. Qed.

Lemma part002_bodies_confined h req :
  confined [Part002.CACHE_NAME; Part002.RUNTIME_CACHE] (href (url req))
    (Part002.supabase_body h req)
  /\ confined [Part002.CACHE_NAME; Part002.RUNTIME_CACHE] (href (url req))
       (Part002.cache_first_body h req).
Proof.
  unfold Part002.supabase_body, Part002.cache_first_body. cbv zeta.
  split; [confine|].
  destruct (origin (url req) =? location_origin h); confine.
Qed.

Lemma respond_world (m : M (option Response)) (w : World) :
  world (respondWith m w) = after (m w).
Proof. unfold respondWith. now destruct (m w). Qed.

Lemma respond_returns_world (m : M Response) (w : World) :
  world (respondWith (returns m) w) = after (m w).
Proof. now rewrite respond_returns. Qed.

(** X1: whatever the request, the network and the store, the fetch handler
    of every draft loses no partition and changes no entry other than the
    one of the intercepted request's URL in its dynamic partition (in the
    v2.1.0 draft: in its static or runtime partition). *)
Theorem fetch_changes_only_the_request_entry
    (h : Host) (req : Request) (w : World) :
  let leaves names (run : Handled) :=
    (forall n, storage_has (caches w) n = true ->
               storage_has (caches (world run)) n = true)
    /\ (forall name k, ~ In name names \/ k <> href (url req) ->
          storage_lookup (caches (world run)) name k
          = storage_lookup (caches w) name k) in
  leaves [Sw.DYNAMIC_CACHE] (Sw.fetch_handler h req w)
  /\ leaves [Part000.DYNAMIC_CACHE] (Part000.fetch_handler h req w)
  /\ leaves [Part001.DYNAMIC_CACHE] (Part001.fetch_handler h req w)
  /\ leaves [Part002.CACHE_NAME; Part002.RUNTIME_CACHE]
       (Part002.fetch_handler h req w)
  /\ leaves [Part003.DYNAMIC_CACHE] (Part003.fetch_handler h req w).
Proof.
  cbv zeta. repeat apply conj.
  all: try match goal with
       | |- forall n, storage_has _ n = true -> _ =>
           change (forall n, storage_has (caches w) n = true ->
                             storage_has (caches (world ?R)) n = true)
       end.
  all: unfold Sw.fetch_handler, Part000.fetch_handler, Part001.fetch_handler,
         Part002.fetch_handler, Part003.fetch_handler; cbv zeta.
  all: repeat match goal with
       | |- context [if ?c then _ else _] => destruct c
       end.
  all: unfold pass_through; cbn [world]; auto.
  all: rewrite ?respond_returns_world, ?respond_world.
  all: first
       [ apply (sw_body_confined h req w)
       | apply (part000_body_confined h req w)
       | apply (part001_body_confined h req w)
       | apply (proj1 (part002_bodies_confined h req) w)
       | apply (proj2 (part002_bodies_confined h req) w)
       | apply (part003_body_confined h req w) ].
Qed.

(** ** Handlers that always answer *)

Lemma settles_ret {A} (a : A) : settles (ret a).
Proof. intros w. now exists a. Qed.

Lemma settles_bind {A B} (m : M A) (f : A -> M B) :
  settles m -> (forall a, settles (f a)) -> settles (bind m f).
Proof.
  intros Hm Hf w. destruct (Hm w) as [a Ha]. unfold bind.
  destruct (m w) as [[a'|e] w1 l1]; cbn in Ha; [|discriminate].
  destruct (Hf a' w1) as [b Hb]. destruct (f a' w1) as [r w2 l2].
  cbn in *. eauto.
Qed.

(** A try whose catch block settles settles, whatever it tries. *)
Lemma settles_try_catch {A} (m : M A) (k : Exn -> M A) :
  (forall e, settles (k e)) -> settles (try_catch m k).
Proof.
  intros Hk w. unfold try_catch.
  destruct (m w) as [[a|e] w1 l1]; cbn; [eauto|].
  destruct (Hk e w1) as [b Hb]. destruct (k e w1) as [r w2 l2].
  cbn in *. eauto.
Qed.

Lemma settles_caches_match req : settles (caches_match req).
Proof. intros w. cbn. eauto. Qed.

Lemma settles_caches_match_url h s : settles (caches_match_url h s).
Proof. intros w. cbn. eauto. Qed.

Lemma settles_caches_open name : settles (caches_open name).
Proof. intros w. cbn. eauto. Qed.

Lemma settles_cache_put name req r : settles (cache_put name req r).
Proof. intros w. cbn. eauto. Qed.

Ltac settle :=
  repeat first
    [ apply settles_ret | apply settles_caches_match
    | apply settles_caches_match_url | apply settles_caches_open
    | apply settles_cache_put
    | apply settles_try_catch; intros ?
    | apply settles_bind; [|intros ?]
    | match goal with
      | |- settles (if ?c then _ else _) => destruct c
      | |- settles (match ?x with _ => _ end) => destruct x
      end ].

Lemma sw_body_settles h req : settles (Sw.fetch_body h req).
Proof. unfold Sw.fetch_body, cache_first. cbv zeta. settle. Qed.

Lemma part003_body_settles h req : settles (Part003.fetch_body h req).
Proof.
  unfold Part003.fetch_body, Part003.shell_lookup, or_else, cache_first.
  cbv zeta. settle.
Qed.

Lemma part002_bodies_settle h req :
  settles (Part002.supabase_body h req)
  /\ settles (Part002.cache_first_body h req).
Proof.
  unfold Part002.supabase_body, Part002.cache_first_body. cbv zeta.
  split; settle.
Qed.

(** X2: sw.js and the v1.2 draft answer every request they intercept with
    a response object, and the v2.1.0 draft never lets its promise reject
    (it can resolve to undefined): whatever the network does, no error of
    a fetch reaches the page through these handlers. *)
Theorem fetch_handlers_never_reject (h : Host) (req : Request) (w : World) :
  (outcome (Sw.fetch_handler h req w) = PassThrough
   \/ exists r, outcome (Sw.fetch_handler h req w) = RespondWith (Ok (Some r)))
  /\ (outcome (Part003.fetch_handler h req w) = PassThrough
      \/ exists r,
           outcome (Part003.fetch_handler h req w) = RespondWith (Ok (Some r)))
  /\ (outcome (Part002.fetch_handler h req w) = PassThrough
      \/ exists o,
           outcome (Part002.fetch_handler h req w) = RespondWith (Ok o)).
Proof.
  repeat apply conj.
  - unfold Sw.fetch_handler.
    destruct (negb (method req =? "GET")); [now left|right].
    rewrite respond_returns. destruct (sw_body_settles h req w) as [r ->].
    now exists r.
  - unfold Part003.fetch_handler.
    destruct (negb (method req =? "GET")); [now left|right].
    rewrite respond_returns. destruct (part003_body_settles h req w) as [r ->].
    now exists r.
  - unfold Part002.fetch_handler. cbv zeta.
    destruct (Part002.skipped h (url req)); [now left|right].
    destruct (JsString.includes (href (url req)) "supabase.co").
    + destruct (proj1 (part002_bodies_settle h req) w) as [o Ho].
      exists o. unfold respondWith.
      destruct (Part002.supabase_body h req w). cbn in *. now rewrite Ho.
    + destruct (proj2 (part002_bodies_settle h req) w) as [o Ho].
      exists o. unfold respondWith.
      destruct (Part002.cache_first_body h req w). cbn in *. now rewrite Ho.
Qed.

(** ** Store, then read *)

Lemma storage_match_open cs name key :
  storage_match (storage_open cs name) key = storage_match cs key.
Proof.
  unfold storage_open. destruct (storage_has cs name); [reflexivity|].
  induction cs as [|[n c] cs IH]; cbn.
  - now rewrite lookup_empty.
  - destruct (c !! key); [reflexivity|exact IH].
Qed.

(** A put into an existing partition is what [caches.match] finds when no
    partition held the key. *)
Lemma storage_match_put cs name key r :
  storage_match cs key = None -> storage_has cs name = true ->
  storage_match (storage_put cs name key r) key = Some r.
Proof.
  induction cs as [|[n c] cs IH]; [discriminate|].
  rewrite storage_has_cons. cbn [storage_match storage_put].
  destruct (c !! key) eqn:Ec; [discriminate|]. intros Hm.
  destruct (n =? name) eqn:En; cbn [storage_match orb].
  - intros _. now rewrite lookup_insert_eq.
  - intros Hh. rewrite Ec. now apply IH.
Qed.

Lemma storage_match_put_open cs name key r :
  storage_match cs key = None ->
  storage_match (storage_put (storage_open cs name) name key r) key = Some r.
Proof.
  intros Hm. apply storage_match_put; [|apply storage_has_open].
  now rewrite storage_match_open.
Qed.

(** The run of the shared cache-first tail on a miss with a 200 response. *)
Lemma cache_first_stores dyn h req w r :
  method req = "GET" -> http_scheme (url req) = true ->
  storage_match (caches w) (href (url req)) = None ->
  net h (fetches w) req CacheDefault = Some r -> status r = 200%Z ->
  cache_first dyn h req w
  = mkRun (Ok r)
      (mkWorld (storage_put (storage_open (caches w) dyn) dyn
                  (href (url req)) r)
         (S (fetches w)))
      [ EvCachesMatch (href (url req)); EvFetch req CacheDefault;
        EvCachesOpen dyn; EvCachePut dyn (href (url req)) r ].
Proof.
  intros Hget Hhttp Hmiss Hnet Hs. run_handler.
  rewrite Hget, Hmiss. cbn. rewrite Hnet. cbn. rewrite Hs. cbn.
  unfold put_accepts. unfold http_scheme in Hhttp.
  now rewrite Hget, Hhttp, Hs.
Qed.

Lemma sw_runs_body h req w :
  method req = "GET" ->
  Sw.fetch_handler h req w = respondWith (returns (Sw.fetch_body h req)) w.
Proof. intros Hget. unfold Sw.fetch_handler. now rewrite Hget. Qed.

Lemma part003_runs_body h req w :
  method req = "GET" ->
  Part003.fetch_handler h req w
  = respondWith (returns (Part003.fetch_body h req)) w.
Proof. intros Hget. unfold Part003.fetch_handler. now rewrite Hget. Qed.

(** X3: in sw.js and the v1.0 draft, once a request missed the cache and
    its fetch returned a response the draft stores (status 200; in v1.0
    also of type basic), the same request is answered with that very
    response from the cache, by one lookup and without a fetch, whatever
    the network does by then. *)
Theorem cached_response_is_served_next_time
    (h h' : Host) (req : Request) (w : World) (r : Response)
    (Hget : method req = "GET")
    (Hhttp : http_scheme (url req) = true)
    (Hmiss : storage_match (caches w) (href (url req)) = None)
    (Hnet : net h (fetches w) req CacheDefault = Some r)
    (Hok : status r = 200%Z) :
  (is_navigate req = false ->
   let w1 := world (Sw.fetch_handler h req w) in
   Sw.fetch_handler h' req w1
   = mkHandled (RespondWith (Ok (Some r))) w1
       [EvCachesMatch (href (url req))])
  /\ (origin (url req) = location_origin h ->
      location_origin h' = location_origin h ->
      rtype r = Basic ->
      let w1 := world (Part000.fetch_handler h req w) in
      Part000.fetch_handler h' req w1
      = mkHandled (RespondWith (Ok (Some r))) w1
          [EvCachesMatch (href (url req))]).
Proof.
  split.
  - intros Hn. cbv zeta. apply sw_cache_hit; [exact Hget| |exact Hn].
    rewrite (sw_runs_body h req w Hget).
    rewrite respond_returns_world, (sw_body_not_navigate h req w Hn).
    rewrite (cache_first_stores _ h req w r Hget Hhttp Hmiss Hnet Hok).
    cbn [after caches]. now apply storage_match_put_open.
  - intros Ho Ho' Ht. cbv zeta.
    apply part000_cache_hit; [exact Hget| |congruence].
    unfold Part000.fetch_handler, Part000.fetch_body.
    rewrite Ho, String.eqb_refl. run_handler.
    rewrite Hget, Hmiss. cbn. rewrite Hnet. cbn. rewrite Hok, Ht. cbn.
    unfold put_accepts. unfold http_scheme in Hhttp.
    rewrite Hget, Hhttp, Hok. cbn. now apply storage_match_put_open.
Qed.

Lemma cached_response_is_served_next_time_witness :
  Sw.fetch_handler (Demo.host "/" Demo.offline) Demo.script
    (world (Sw.fetch_handler (Demo.host "/" (Demo.online (Demo.ok_page "app")))
              Demo.script (Demo.with_shell Sw.STATIC_CACHE)))
  = mkHandled (RespondWith (Ok (Some (Demo.ok_page "app"))))
      (world (Sw.fetch_handler
                (Demo.host "/" (Demo.online (Demo.ok_page "app")))
                Demo.script (Demo.with_shell Sw.STATIC_CACHE)))
      [EvCachesMatch (href (url Demo.script))].
Proof.
  apply (cached_response_is_served_next_time
           (Demo.host "/" (Demo.online (Demo.ok_page "app")))
           (Demo.host "/" Demo.offline) Demo.script
           (Demo.with_shell Sw.STATIC_CACHE) (Demo.ok_page "app")
           eq_refl eq_refl eq_refl eq_refl eq_refl).
  reflexivity.
Defined.

(** ** The network-first draft (v1.0.1) *)

Section NetworkFirst.

Variables (h : Host) (req : Request) (w : World).
Hypothesis Hget : method req = "GET".
Hypothesis Hprefix : JsString.startsWith (href (url req)) "http" = true.

Lemma part001_runs_body :
  Part001.fetch_handler h req w = respondWith (Part001.fetch_body h req) w.
Proof using Hget Hprefix.
  unfold Part001.fetch_handler. now rewrite Hget, Hprefix.
Qed.

Lemma part001_online_stored r :
  net h (fetches w) req CacheDefault = Some r ->
  http_scheme (url req) = true ->
  status r = 200%Z -> rtype r <> Error ->
  Part001.fetch_handler h req w
  = mkHandled (RespondWith (Ok (Some r)))
      (mkWorld
         (storage_put (storage_open (caches w) Part001.DYNAMIC_CACHE)
            Part001.DYNAMIC_CACHE (href (url req)) r)
         (S (fetches w)))
      [ EvFetch req CacheDefault; EvCachesOpen Part001.DYNAMIC_CACHE;
        EvCachePut Part001.DYNAMIC_CACHE (href (url req)) r ].
Proof using Hget Hprefix.
  intros Hnet Hhttp Hs Ht. rewrite part001_runs_body.
  unfold Part001.fetch_body. run_handler. rewrite Hnet. cbn. rewrite Hs.
  assert (He : ResponseType_eqb (rtype r) Error = false)
    by (destruct (rtype r); cbn; congruence).
  rewrite He. cbn. unfold put_accepts. unfold http_scheme in Hhttp.
  now rewrite Hget, Hhttp, Hs.
Qed.

Lemma part001_online_skipped r :
  net h (fetches w) req CacheDefault = Some r ->
  status r <> 200%Z \/ rtype r = Error ->
  Part001.fetch_handler h req w
  = mkHandled (RespondWith (Ok (Some r)))
      (mkWorld (caches w) (S (fetches w))) [EvFetch req CacheDefault].
Proof using Hget Hprefix.
  intros Hnet Hc. rewrite part001_runs_body.
  unfold Part001.fetch_body. run_handler. rewrite Hnet. cbn.
  assert (He : negb (status r =? 200)%Z
               || ResponseType_eqb (rtype r) Error = true).
  { destruct Hc as [Hc| ->]; [|apply orb_true_r].
    apply Z.eqb_neq in Hc. now rewrite Hc. }
  now rewrite He.
Qed.

Lemma part001_offline :
  net h (fetches w) req CacheDefault = None ->
  outcome (Part001.fetch_handler h req w)
  = RespondWith
      (match storage_match (caches w) (href (url req)) with
       | Some c => Ok (Some c)
       | None =>
           if mode req =? "navigate"
           then Ok (storage_match (caches w)
                      (href (parse_url h "./index.html")))
           else Throw (JsError "No cached response found")
       end)
  /\ caches (world (Part001.fetch_handler h req w)) = caches w.
Proof using Hget Hprefix.
  intros Hnet. rewrite part001_runs_body.
  unfold Part001.fetch_body. run_handler. rewrite Hnet. cbn. rewrite Hget.
  destruct (storage_match (caches w) (href (url req))); cbn; [now split|].
  destruct (mode req =? "navigate"); cbn; now split.
Qed.

End NetworkFirst.

(** X4: the v1.0.1 draft is network-first: when the fetch of a GET request
    over http succeeds its response is returned without any cache lookup,
    whatever the store holds; it is then put into the dynamic partition
    when its status is 200 and its type is not error, and nothing is
    written otherwise. *)
Theorem network_first_answers_from_the_network
    (h : Host) (req : Request) (w : World) (r : Response)
    (Hget : method req = "GET")
    (Hprefix : JsString.startsWith (href (url req)) "http" = true)
    (Hnet : net h (fetches w) req CacheDefault = Some r) :
  (http_scheme (url req) = true -> status r = 200%Z -> rtype r <> Error ->
   Part001.fetch_handler h req w
   = mkHandled (RespondWith (Ok (Some r)))
       (mkWorld
          (storage_put (storage_open (caches w) Part001.DYNAMIC_CACHE)
             Part001.DYNAMIC_CACHE (href (url req)) r)
          (S (fetches w)))
       [ EvFetch req CacheDefault; EvCachesOpen Part001.DYNAMIC_CACHE;
         EvCachePut Part001.DYNAMIC_CACHE (href (url req)) r ])
  /\ (status r <> 200%Z \/ rtype r = Error ->
      Part001.fetch_handler h req w
      = mkHandled (RespondWith (Ok (Some r)))
          (mkWorld (caches w) (S (fetches w))) [EvFetch req CacheDefault]).
Proof.
  split.
  - intros Hhttp Hs Ht. now apply part001_online_stored.
  - intros Hc. now apply part001_online_skipped.
Qed.

Lemma network_first_answers_from_the_network_witness :
  outcome (Part001.fetch_handler
             (Demo.host "/" (Demo.online Demo.fresh_page)) Demo.navigation
             (Demo.with_shell Part001.STATIC_CACHE))
  = RespondWith (Ok (Some Demo.fresh_page)).
Proof.
  destruct (network_first_answers_from_the_network
              (Demo.host "/" (Demo.online Demo.fresh_page)) Demo.navigation
              (Demo.with_shell Part001.STATIC_CACHE) Demo.fresh_page
              eq_refl eq_refl eq_refl) as [Hstored _].
  rewrite Hstored; [reflexivity|reflexivity|reflexivity|].
  vm_compute. discriminate.
Defined.

(** X5: when the fetch of a GET request over http fails, the v1.0.1 draft
    answers with the response cached for the request; when there is none,
    a navigation gets the result of the lookup of ./index.html (undefined
    when absent) and any other request makes the promise reject with the
    error "No cached response found".  The store is not changed. *)
Theorem network_first_falls_back_to_cache
    (h : Host) (req : Request) (w : World)
    (Hget : method req = "GET")
    (Hprefix : JsString.startsWith (href (url req)) "http" = true)
    (Hnet : net h (fetches w) req CacheDefault = None) :
  outcome (Part001.fetch_handler h req w)
  = RespondWith
      (match storage_match (caches w) (href (url req)) with
       | Some c => Ok (Some c)
       | None =>
           if mode req =? "navigate"
           then Ok (storage_match (caches w)
                      (href (parse_url h "./index.html")))
           else Throw (JsError "No cached response found")
       end)
  /\ caches (world (Part001.fetch_handler h req w)) = caches w.
Proof. now apply part001_offline. Qed.

Lemma network_first_falls_back_to_cache_witness :
  outcome (Part001.fetch_handler (Demo.host "/" Demo.offline) Demo.script
             (Demo.with_shell Part001.STATIC_CACHE))
  = RespondWith (Throw (JsError "No cached response found")).
Proof.
  apply (network_first_falls_back_to_cache (Demo.host "/" Demo.offline)
           Demo.script (Demo.with_shell Part001.STATIC_CACHE)
           eq_refl eq_refl eq_refl).
Defined.

(** X6: in the v1.0.1 draft, after a fetch refreshed the dynamic partition
    with a response [r], a later failing fetch of the same request is
    answered with [r] when no partition held the request before; but when
    the partition created first (the static one, filled at install) holds
    a copy [s] of the request, the fallback keeps answering with [s]: the
    refresh never reaches what is served offline. *)
Theorem network_first_refresh_then_offline
    (h h' : Host) (req : Request) (w : World) (r : Response)
    (Hget : method req = "GET")
    (Hprefix : JsString.startsWith (href (url req)) "http" = true)
    (Hhttp : http_scheme (url req) = true)
    (Hnet : net h (fetches w) req CacheDefault = Some r)
    (Hok : status r = 200%Z) (Htype : rtype r <> Error)
    (Hdown : net h' (S (fetches w)) req CacheDefault = None) :
  let w1 := world (Part001.fetch_handler h req w) in
  storage_lookup (caches w1) Part001.DYNAMIC_CACHE (href (url req)) = Some r
  /\ (storage_match (caches w) (href (url req)) = None ->
      outcome (Part001.fetch_handler h' req w1) = RespondWith (Ok (Some r)))
  /\ (forall n c rest s,
        caches w = (n, c) :: rest -> n <> Part001.DYNAMIC_CACHE ->
        c !! href (url req) = Some s ->
        outcome (Part001.fetch_handler h' req w1) = RespondWith (Ok (Some s))).
Proof.
  cbv zeta.
  rewrite (part001_online_stored h req w Hget Hprefix r Hnet Hhttp Hok Htype).
  cbn [world caches].
  set (w1 := mkWorld _ _).
  assert (Hd : net h' (fetches w1) req CacheDefault = None) by exact Hdown.
  destruct (part001_offline h' req w1 Hget Hprefix Hd) as [Hout _].
  rewrite Hout. subst w1. cbn [caches].
  split; [apply storage_lookup_put_open|]. split.
  - intros Hmiss. now rewrite storage_match_put_open.
  - intros n c rest s Hcs Hn Hc. rewrite Hcs.
    apply String.eqb_neq in Hn.
    assert (Hput : forall cs',
      storage_match (storage_put ((n, c) :: cs') Part001.DYNAMIC_CACHE
                       (href (url req)) r) (href (url req)) = Some s).
    { intros cs'. cbn [storage_put]. rewrite Hn. cbn [storage_match].
      now rewrite Hc. }
    unfold storage_open.
    destruct (storage_has ((n, c) :: rest) Part001.DYNAMIC_CACHE).
    + now rewrite Hput.
    + cbn [app]. now rewrite Hput.
Qed.

Lemma network_first_refresh_then_offline_witness :
  outcome (Part001.fetch_handler (Demo.host "/" Demo.offline) Demo.script
             (world (Part001.fetch_handler
                       (Demo.host "/" (Demo.online (Demo.ok_page "app")))
                       Demo.script
                       (Scenario.stale_static Part001.STATIC_CACHE))))
  = RespondWith (Ok (Some (Demo.ok_page "stale"))).
Proof.
  destruct (network_first_refresh_then_offline
              (Demo.host "/" (Demo.online (Demo.ok_page "app")))
              (Demo.host "/" Demo.offline) Demo.script
              (Scenario.stale_static Part001.STATIC_CACHE)
              (Demo.ok_page "app") eq_refl eq_refl eq_refl eq_refl eq_refl)
    as (_ & _ & Hstale).
  - vm_compute. discriminate.
  - reflexivity.
  - eapply Hstale; [reflexivity| |reflexivity].
    vm_compute. discriminate.
Defined.

(** ** Navigations in sw.js and the v1.2 draft *)

(** X7: in sw.js, and in the v1.2 draft unless the browser reports being
    offline, a navigation or HTML-accepting GET request whose fetch
    succeeds is answered with the network's response by that one fetch:
    no cache is read and the response is not stored, so these handlers
    never refresh (or create) the cached copy of a page. *)
Theorem navigation_is_fetched_and_not_cached
    (h : Host) (req : Request) (w : World) (r : Response)
    (Hget : method req = "GET")
    (Hnav : is_navigate req = true)
    (Hnet : net h (fetches w) req CacheDefault = Some r) :
  let fetched :=
    mkHandled (RespondWith (Ok (Some r)))
      (mkWorld (caches w) (S (fetches w))) [EvFetch req CacheDefault] in
  Sw.fetch_handler h req w = fetched
  /\ (JsString.endsWith (hostname (url req)) "supabase.co" = false ->
      navigator_onLine h <> Some false ->
      Part003.fetch_handler h req w = fetched).
Proof.
  cbv zeta. split.
  - rewrite (sw_runs_body h req w Hget). unfold Sw.fetch_body.
    rewrite Hnav. run_handler. now rewrite Hnet.
  - intros Hs Hon. rewrite (part003_runs_body h req w Hget).
    unfold Part003.fetch_body. rewrite Hs, Hnav. cbv zeta.
    assert (Ho : negb match navigator_onLine h with
                      | Some b => b
                      | None => true
                      end = false)
      by (destruct (navigator_onLine h) as [[|]|]; cbn; congruence).
    rewrite Ho. run_handler. now rewrite Hnet.
Qed.

Lemma navigation_is_fetched_and_not_cached_witness :
  Sw.fetch_handler (Demo.host "/" (Demo.online Demo.fresh_page))
    Demo.navigation (Demo.with_shell Sw.STATIC_CACHE)
  = mkHandled (RespondWith (Ok (Some Demo.fresh_page)))
      (mkWorld (caches (Demo.with_shell Sw.STATIC_CACHE)) 1)
      [EvFetch Demo.navigation CacheDefault].
Proof.
  destruct (navigation_is_fetched_and_not_cached
              (Demo.host "/" (Demo.online Demo.fresh_page)) Demo.navigation
              (Demo.with_shell Sw.STATIC_CACHE) Demo.fresh_page
              eq_refl eq_refl eq_refl) as [Hsw _].
  exact Hsw.
Defined.

(** X8: in the v1.2 draft, when the browser reports being offline and the
    app shell is cached under BASE_PATH + index.html, under BASE_PATH or
    under index.html (looked up in that order), a navigation or
    HTML-accepting GET request that is not for the API host is answered
    with the first of these that is present, without any fetch and
    without touching the store. *)
Theorem offline_browser_gets_shell_without_fetch
    (h : Host) (req : Request) (w : World) (shell : Response)
    (Hget : method req = "GET")
    (Hnav : is_navigate req = true)
    (Hhost : JsString.endsWith (hostname (url req)) "supabase.co" = false)
    (Hoff : navigator_onLine h = Some false)
    (Hshell :
       match storage_match (caches w)
               (href (parse_url h (BASE_PATH h ++ "index.html"))) with
       | Some s => Some s
       | None =>
           match storage_match (caches w) (href (parse_url h (BASE_PATH h))) with
           | Some s => Some s
           | None => storage_match (caches w) (href (parse_url h "index.html"))
           end
       end = Some shell) :
  let run := Part003.fetch_handler h req w in
  outcome run = RespondWith (Ok (Some shell))
  /\ world run = w
  /\ existsb is_fetch_event (calls run) = false.
Proof.
  cbv zeta. rewrite (part003_runs_body h req w Hget).
  unfold Part003.fetch_body, Part003.shell_lookup. rewrite Hhost, Hnav, Hoff.
  run_handler.
  destruct (storage_match (caches w)
              (href (parse_url h (BASE_PATH h ++ "index.html")))) as [s1|];
    cbn.
  { injection Hshell as ->. now repeat split. }
  destruct (storage_match (caches w) (href (parse_url h (BASE_PATH h))))
    as [s2|]; cbn.
  { injection Hshell as ->. now repeat split. }
  rewrite Hshell. cbn. now repeat split.
Qed.

Lemma offline_browser_gets_shell_without_fetch_witness :
  outcome (Part003.fetch_handler Scenario.offline_browser Demo.navigation
             (Demo.with_shell Part003.STATIC_CACHE))
  = RespondWith (Ok (Some (Demo.ok_page "shell"))).
Proof.
  apply (offline_browser_gets_shell_without_fetch Scenario.offline_browser
           Demo.navigation (Demo.with_shell Part003.STATIC_CACHE)
           (Demo.ok_page "shell") eq_refl eq_refl eq_refl eq_refl eq_refl).
Defined.

(** ** Install, when the assets can be fetched *)

Section AddAll.

Variables (h : Host) (cm : CacheMode) (name : string).

(** The fetch half of addAll on assets that can all be fetched. *)
Lemma add_fetch_all_succeeds (urls : list string) (w : World) :
  (forall url, In url urls ->
     http_scheme (parse_url h url) = true
     /\ exists r, (forall n, net h n (request_of h url) cm = Some r)
                  /\ response_ok r = true /\ status r <> 206%Z) ->
  exists rs,
    result (add_fetch_all h cm (map (request_of h) urls) w) = Ok rs
    /\ caches (after (add_fetch_all h cm (map (request_of h) urls) w))
       = caches w
    /\ map fst rs = map (request_of h) urls
    /\ Forall (fun p => put_accepts (fst p) (snd p) = true) rs.
Proof.
  revert w. induction urls as [|u urls IH]; intros w Hgood.
  { exists []. cbn. repeat split. constructor. }
  destruct (Hgood u (or_introl eq_refl)) as (Hh & r & Hnet & Hok & Hne).
  destruct (IH (mkWorld (caches w) (S (fetches w)))
              (fun url Hin => Hgood url (or_intror Hin)))
    as (rs & Hr & Hc & Hm & Ha).
  exists ((request_of h u, r) :: rs).
  cbn [map add_fetch_all]. unfold add_fetch.
  cbn [request_of url]. rewrite Hh. cbn [negb].
  unfold bind, fetch, ret, throw. rewrite Hnet.
  apply Z.eqb_neq in Hne. rewrite Hok, Hne. cbn [negb andb].
  destruct (add_fetch_all h cm (map (request_of h) urls) _)
    as [[rs'|e] w1 l1]; cbn in Hr, Hc |- *; [|discriminate].
  injection Hr as ->. repeat split; [exact Hc|now rewrite Hm|].
  constructor; [|exact Ha]. cbn [fst snd].
  unfold put_accepts. cbn [request_of method url].
  unfold http_scheme in Hh. now rewrite Hh, Hne.
Qed.

(** Putting the fetched pairs: each of them is in the partition afterwards. *)
Lemma put_all_stores (rs : list (Request * Response)) (w : World) :
  storage_has (caches w) name = true ->
  Forall (fun p => put_accepts (fst p) (snd p) = true) rs ->
  let run := for_each (fun p => cache_put name (fst p) (snd p)) rs w in
  result run = Ok tt
  /\ (forall k, is_Some (storage_lookup (caches w) name k) ->
        is_Some (storage_lookup (caches (after run)) name k))
  /\ (forall p, In p rs ->
        is_Some (storage_lookup (caches (after run)) name
                   (href (url (fst p))))).
Proof.
  cbv zeta. revert w. induction rs as [|[req r] rs IH]; intros w Hhas Hacc.
  { cbn. repeat split; [auto|contradiction]. }
  inversion Hacc as [|? ? Hp Hacc']; subst. cbn [fst snd] in Hp.
  set (w1 := mkWorld (storage_put (caches w) name (href (url req)) r)
               (fetches w)).
  assert (Hstep : cache_put name req r w
                  = mkRun (Ok tt) w1 [EvCachePut name (href (url req)) r])
    by (unfold cache_put; now rewrite Hp).
  assert (Hhas1 : storage_has (caches w1) name = true)
    by (subst w1; cbn [caches]; now rewrite storage_has_put).
  destruct (IH w1 Hhas1 Hacc') as (Hr & Hmono & Hin).
  cbn [for_each fst snd].
  rewrite (bind_ok (cache_put name req r) _ w tt) by now rewrite Hstep.
  rewrite Hstep. cbn [result after emitted].
  split; [exact Hr|]. split.
  - intros k Hk. apply Hmono. subst w1. cbn [caches].
    now apply storage_lookup_put_mono.
  - intros p [<-|Hp']; [|now apply Hin].
    apply Hmono. subst w1. cbn [caches fst].
    rewrite storage_lookup_put; [eauto|exact Hhas].
Qed.

(** The install step of the addAll drafts on assets that can be fetched. *)
Lemma add_all_install_succeeds (urls : list string) (w : World) :
  (forall url, In url urls ->
     http_scheme (parse_url h url) = true
     /\ exists r, (forall n, net h n (request_of h url) cm = Some r)
                  /\ response_ok r = true /\ status r <> 206%Z) ->
  let run :=
    try_catch
      (caches_open name ;;
       cache_addAll h name cm (map (request_of h) urls) ;;
       skipWaiting)
      (fun _ => ret tt) w in
  result run = Ok tt
  /\ In EvSkipWaiting (emitted run)
  /\ (forall url, In url urls ->
        is_Some (storage_lookup (caches (after run)) name
                   (href (parse_url h url)))).
Proof.
  intros Hgood. cbv zeta.
  set (w1 := mkWorld (storage_open (caches w) name) (fetches w)).
  destruct (add_fetch_all_succeeds urls w1 Hgood) as (rs & Hr & Hc & Hm & Ha).
  set (fetched := add_fetch_all h cm (map (request_of h) urls) w1) in *.
  assert (Hhas : storage_has (caches (after fetched)) name = true)
    by (rewrite Hc; apply storage_has_open).
  destruct (put_all_stores rs (after fetched) Hhas Ha) as (Hpr & _ & Hpin).
  cbv zeta in Hpr, Hpin.
  set (puts := for_each (fun p => cache_put name (fst p) (snd p)) rs
                 (after fetched)) in *.
  assert (Hadd : cache_addAll h name cm (map (request_of h) urls) w1
                 = mkRun (Ok tt) (after puts)
                     (emitted fetched ++ emitted puts)).
  { unfold cache_addAll. rewrite (bind_ok _ _ w1 rs Hr). fold fetched puts.
    now rewrite Hpr. }
  assert (Hbody : (caches_open name ;;
                   cache_addAll h name cm (map (request_of h) urls) ;;
                   skipWaiting) w
                  = mkRun (Ok tt) (after puts)
                      (EvCachesOpen name
                         :: (emitted fetched ++ emitted puts)
                         ++ [EvSkipWaiting])).
  { rewrite (bind_ok (caches_open name) _ w tt eq_refl).
    change (after (caches_open name w)) with w1.
    rewrite (bind_ok (cache_addAll h name cm (map (request_of h) urls)) _
               w1 tt) by now rewrite Hadd.
    now rewrite Hadd. }
  rewrite (try_catch_ok _ _ _ tt) by now rewrite Hbody.
  rewrite Hbody. cbn [result after emitted].
  split; [reflexivity|]. split.
  - right. apply in_or_app. right. now left.
  - intros url Hin.
    assert (Hp : exists r, In (request_of h url, r) rs).
    { assert (Hq : In (request_of h url) (map fst rs))
        by (rewrite Hm; now apply in_map).
      apply in_map_iff in Hq as ([q r] & Hq & Hqin). cbn in Hq. subst q.
      eauto. }
    destruct Hp as [r Hp]. exact (Hpin _ Hp).
Qed.

End AddAll.

(** X9: in the addAll drafts (sw.js, v1.0, v2.1.0), when every asset of the
    list is an http(s) URL whose fetch returns an ok, non-partial
    response, the install step fulfils, calls skipWaiting, and every asset
    of the list is in the static partition afterwards. *)
Theorem install_caches_every_asset (h : Host) (w : World) :
  let fetchable cm url :=
    http_scheme (parse_url h url) = true
    /\ exists r, (forall n, net h n (request_of h url) cm = Some r)
                 /\ response_ok r = true /\ status r <> 206%Z in
  let all_cached name urls (run : Run unit) :=
    result run = Ok tt
    /\ In EvSkipWaiting (emitted run)
    /\ forall url, In url urls ->
         is_Some (storage_lookup (caches (after run)) name
                    (href (parse_url h url))) in
  ((forall url, In url (Sw.STATIC_ASSETS h) -> fetchable CacheDefault url) ->
   all_cached Sw.STATIC_CACHE (Sw.STATIC_ASSETS h) (Sw.install_handler h w))
  /\ ((forall url, In url Part000.STATIC_ASSETS -> fetchable CacheDefault url) ->
      all_cached Part000.STATIC_CACHE Part000.STATIC_ASSETS
        (Part000.install_handler h w))
  /\ ((forall url, In url Part002.urlsToCache -> fetchable CacheReload url) ->
      all_cached Part002.CACHE_NAME Part002.urlsToCache
        (Part002.install_handler h w)).
Proof.
  cbv zeta. repeat apply conj; intros Hgood.
  - exact (add_all_install_succeeds h CacheDefault Sw.STATIC_CACHE
             (Sw.STATIC_ASSETS h) w Hgood).
  - exact (add_all_install_succeeds h CacheDefault Part000.STATIC_CACHE
             Part000.STATIC_ASSETS w Hgood).
  - exact (add_all_install_succeeds h CacheReload Part002.CACHE_NAME
             Part002.urlsToCache w Hgood).
Qed.

Lemma install_caches_every_asset_witness :
  is_Some
    (storage_lookup
       (caches (after (Part000.install_handler
                         (Demo.host "/" Scenario.ok_network) (mkWorld [] 0))))
       Part000.STATIC_CACHE
       (href (parse_url (Demo.host "/" Scenario.ok_network) "/index.html"))).
Proof.
  destruct (install_caches_every_asset (Demo.host "/" Scenario.ok_network)
              (mkWorld [] 0)) as (_ & Hinstall & _).
  destruct Hinstall as (_ & _ & Hcached).
  - intros url Hin. split.
    + cbn in Hin.
      repeat (destruct Hin as [<-|Hin]; [reflexivity|]). contradiction.
    + exists (Demo.ok_page "asset"). repeat split. vm_compute. discriminate.
  - apply Hcached. right. now left.
Defined.

(** ** Activation of the v1.2 draft *)

Lemma filter_nothing {A} (f : A -> bool) (l : list A) :
  (forall x, f x = false) -> List.filter f l = [].
Proof.
  intros Hf. induction l as [|x l IH]; cbn; [reflexivity|]. now rewrite Hf.
Qed.

Lemma storage_lookup_filter (f : string -> bool) cs name k :
  f name = true ->
  storage_lookup (List.filter (fun p => f (fst p)) cs) name k
  = storage_lookup cs name k.
Proof.
  intros Hf. unfold storage_lookup.
  induction cs as [|[n c] cs IH]; cbn; [reflexivity|].
  destruct (f n) eqn:Efn; cbn.
  - destruct (n =? name); [reflexivity|exact IH].
  - destruct (n =? name) eqn:En; [|exact IH].
    apply String.eqb_eq in En. congruence.
Qed.

(** The run of the v1.2 activation when the static partition holds no
    shell under any of the three keys. *)
Lemma part003_activate_unguarded (h : Host) (w : World) :
  (forall s, In s [BASE_PATH h ++ "index.html"; "index.html"; BASE_PATH h] ->
     storage_lookup (caches w) Part003.STATIC_CACHE (href (parse_url h s))
     = None) ->
  let w1 := mkWorld (storage_open (caches w) Part003.STATIC_CACHE)
              (fetches w) in
  Part003.activate_handler h w
  = mkRun (Ok tt) w1
      (EvCachesOpen Part003.STATIC_CACHE
         :: emitted (Part003.has_shell h w1)
         ++ [EvCachesKeys; EvClientsClaim])
  /\ forall n, ~ In (EvCachesDelete n) (emitted (Part003.has_shell h w1)).
Proof.
  intros Hnone. cbv zeta.
  set (w1 := mkWorld (storage_open (caches w) Part003.STATIC_CACHE)
               (fetches w)).
  assert (Hlook : forall s,
    In s [BASE_PATH h ++ "index.html"; "index.html"; BASE_PATH h] ->
    storage_lookup (caches w1) Part003.STATIC_CACHE (href (parse_url h s))
    = None).
  { intros s Hs. subst w1. cbn [caches]. rewrite storage_lookup_open. auto. }
  destruct (part003_has_shell h w1) as [Hr Ha]. cbv zeta in Hr.
  rewrite !Hlook in Hr by (cbn; tauto).
  pose proof (for_each_delete
                (fun n => bool_decide (is_Some (@None Response))
                          && negb (n =? Part003.STATIC_CACHE)
                          && negb (n =? Part003.DYNAMIC_CACHE))
                (storage_keys (caches w1)) w1) as Hloop.
  rewrite filter_nothing in Hloop by reflexivity.
  cbn [fold_left map] in Hloop.
  assert (Hw1 : mkWorld (caches w1) (fetches w1) = w1) by reflexivity.
  rewrite Hw1 in Hloop.
  assert (Hbody :
    (caches_open Part003.STATIC_CACHE ;;
     hasShell <- Part003.has_shell h ;;
     cacheNames <- caches_keys ;;
     for_each
       (fun cacheName =>
          if bool_decide (is_Some hasShell)
             && negb (cacheName =? Part003.STATIC_CACHE)
             && negb (cacheName =? Part003.DYNAMIC_CACHE)
          then caches_delete cacheName
          else ret tt)
       cacheNames ;;
     clients_claim) w
    = mkRun (Ok tt) w1
        (EvCachesOpen Part003.STATIC_CACHE
           :: emitted (Part003.has_shell h w1)
           ++ [EvCachesKeys; EvClientsClaim])).
  { rewrite (bind_ok (caches_open Part003.STATIC_CACHE) _ w tt eq_refl).
    change (after (caches_open Part003.STATIC_CACHE w)) with w1.
    rewrite (bind_ok (Part003.has_shell h) _ w1 None Hr). rewrite Ha.
    rewrite (bind_ok caches_keys _ w1 (storage_keys (caches w1)) eq_refl).
    change (after (caches_keys w1)) with w1.
    rewrite (bind_ok _ _ w1 tt (f_equal result Hloop)). rewrite Hloop.
    reflexivity. }
  unfold Part003.activate_handler.
  rewrite (try_catch_ok _ _ _ tt) by now rewrite Hbody.
  rewrite Hbody. split; [reflexivity|].
  intros n. unfold Part003.has_shell, or_else, cache_match_url, bind, ret.
  cbn.
  repeat (destruct (storage_lookup _ _ _); cbn);
    intuition discriminate.
Qed.

(** X10: activation of the v1.2 draft deletes nothing when the static
    partition holds the shell under none of its three keys: every
    partition, stale ones included, is kept as it is (the static partition
    is created, empty, when it was missing). *)
Theorem activation_without_shell_keeps_everything (h : Host) (w : World)
    (Hnone :
       forall s,
         In s [BASE_PATH h ++ "index.html"; "index.html"; BASE_PATH h] ->
         storage_lookup (caches w) Part003.STATIC_CACHE (href (parse_url h s))
         = None) :
  let run := Part003.activate_handler h w in
  result run = Ok tt
  /\ caches (after run) = storage_open (caches w) Part003.STATIC_CACHE
  /\ (forall n, ~ In (EvCachesDelete n) (emitted run))
  /\ In EvClientsClaim (emitted run).
Proof.
  cbv zeta.
  destruct (part003_activate_unguarded h w Hnone) as [Hrun Hdel].
  cbv zeta in Hrun, Hdel. rewrite Hrun. cbn [result after emitted caches].
  repeat split.
  - intros n [Hn|Hn]; [discriminate|].
    apply in_app_or in Hn as [Hn|[Hn|[Hn|[]]]]; try discriminate.
    exact (Hdel n Hn).
  - right. apply in_or_app. right. right. now left.
Qed.

Lemma activation_without_shell_keeps_everything_witness :
  storage_keys
    (caches (after (Part003.activate_handler (Demo.host "/" Demo.offline)
                      (Demo.shared_store "tuba-static-v1.1"))))
  = ["other-app-cache"; "tuba-static-v0.9"; "tuba-static-v1.1";
     Part003.STATIC_CACHE].
Proof.
  destruct (activation_without_shell_keeps_everything
              (Demo.host "/" Demo.offline)
              (Demo.shared_store "tuba-static-v1.1")) as (_ & Hkeep & _).
  - intros s Hs. cbn in Hs.
    repeat (destruct Hs as [<-|Hs]; [reflexivity|]). contradiction.
  - rewrite Hkeep. reflexivity.
Defined.

(** X11: in the v1.2 draft, install and activation compose: when the
    shell document BASE_PATH + index.html can be fetched during install
    (whatever happens to the other assets), the guard of the activation
    that follows passes, so activation leaves only partitions named by the
    current static or dynamic name, and the shell is still cached. *)
Theorem install_then_activate_sweeps (h : Host) (w : World) (r : Response)
    (Hhttp : http_scheme (parse_url h (BASE_PATH h ++ "index.html")) = true)
    (Hnet : forall n,
        net h n (request_of h (BASE_PATH h ++ "index.html")) CacheDefault
        = Some r)
    (Hok : response_ok r = true) (Hfull : status r <> 206%Z) :
  let w1 := after (Part003.install_handler h w) in
  let w2 := after (Part003.activate_handler h w1) in
  caches w2
  = List.filter
      (fun p => (fst p =? Part003.STATIC_CACHE)
                || (fst p =? Part003.DYNAMIC_CACHE))
      (caches w1)
  /\ (forall n, In n (storage_keys (caches w2)) ->
        n = Part003.STATIC_CACHE \/ n = Part003.DYNAMIC_CACHE)
  /\ is_Some (storage_lookup (caches w2) Part003.STATIC_CACHE
                (href (parse_url h (BASE_PATH h ++ "index.html")))).
Proof.
  cbv zeta.
  destruct (add_each_install h Part003.STATIC_CACHE (Part003.STATIC_ASSETS h) w)
    as (_ & _ & Hstored). cbv zeta in Hstored.
  fold (Part003.install_handler h) in Hstored.
  set (w1 := after (Part003.install_handler h w)) in *.
  destruct (Hstored (BASE_PATH h ++ "index.html") r (or_introl eq_refl)
              Hhttp Hnet Hok Hfull) as [s Hs].
  destruct (part003_has_shell h w1) as [Hshell _]. cbv zeta in Hshell.
  rewrite Hs in Hshell.
  destruct (part003_activate h w1 s Hshell) as [_ Hact].
  rewrite Hact. cbn [caches]. split; [reflexivity|]. split.
  - apply filter_current_keys.
  - rewrite (storage_lookup_filter
               (fun n => (n =? Part003.STATIC_CACHE)
                         || (n =? Part003.DYNAMIC_CACHE)))
      by reflexivity.
    now rewrite Hs.
Qed.

Lemma install_then_activate_sweeps_witness :
  storage_keys
    (caches
       (after (Part003.activate_handler (Demo.host "/" Scenario.ok_network)
                 (after (Part003.install_handler
                           (Demo.host "/" Scenario.ok_network)
                           (Demo.shared_store "tuba-static-v1.1"))))))
  = [Part003.STATIC_CACHE].
Proof.
  destruct (install_then_activate_sweeps (Demo.host "/" Scenario.ok_network)
              (Demo.shared_store "tuba-static-v1.1") (Demo.ok_page "asset")
              eq_refl (fun _ => eq_refl) eq_refl) as (Hleft & _ & _).
  - vm_compute. discriminate.
  - rewrite Hleft. reflexivity.
Defined.

(** ** The v2.1.0 draft: requests *)

Section CompleteOffline.

Variables (h : Host) (req : Request) (w : World).
Hypothesis Hkept : Part002.skipped h (url req) = false.

Lemma part002_supabase_online r :
  JsString.includes (href (url req)) "supabase.co" = true ->
  net h (fetches w) req CacheDefault = Some r ->
  Part002.fetch_handler h req w
  = mkHandled (RespondWith (Ok (Some r)))
      (after (cache_put Part002.RUNTIME_CACHE req r
                (mkWorld (storage_open (caches w) Part002.RUNTIME_CACHE)
                   (S (fetches w)))))
      [ EvFetch req CacheDefault; EvCachesOpen Part002.RUNTIME_CACHE;
        EvCachePut Part002.RUNTIME_CACHE (href (url req)) r ].
Proof using Hkept.
  intros Hs Hnet. unfold Part002.fetch_handler. cbv zeta.
  rewrite Hkept, Hs. unfold Part002.supabase_body. run_handler.
  now rewrite Hnet.
Qed.

Lemma part002_supabase_offline :
  JsString.includes (href (url req)) "supabase.co" = true ->
  net h (fetches w) req CacheDefault = None ->
  Part002.fetch_handler h req w
  = mkHandled
      (RespondWith
         (Ok (Some (match (if method req =? "GET"
                           then storage_match (caches w) (href (url req))
                           else None) with
                    | Some c => c
                    | None => Part002.offline_json
                    end))))
      (mkWorld (caches w) (S (fetches w)))
      [EvFetch req CacheDefault; EvCachesMatch (href (url req))].
Proof using Hkept.
  intros Hs Hnet. unfold Part002.fetch_handler. cbv zeta.
  rewrite Hkept, Hs. unfold Part002.supabase_body. run_handler.
  rewrite Hnet. cbn.
  now destruct (if method req =? "GET" then _ else _).
Qed.

Lemma part002_miss_online r :
  JsString.includes (href (url req)) "supabase.co" = false ->
  method req = "GET" ->
  storage_match (caches w) (href (url req)) = None ->
  net h (fetches w) req CacheDefault = Some r ->
  let partition :=
    if origin (url req) =? location_origin h then Part002.CACHE_NAME
    else Part002.RUNTIME_CACHE in
  (status r = 200%Z -> rtype r <> Error -> http_scheme (url req) = true ->
   Part002.fetch_handler h req w
   = mkHandled (RespondWith (Ok (Some r)))
       (mkWorld
          (storage_put (storage_open (caches w) partition) partition
             (href (url req)) r)
          (S (fetches w)))
       [ EvCachesMatch (href (url req)); EvFetch req CacheDefault;
         EvCachesOpen partition; EvCachePut partition (href (url req)) r ])
  /\ (status r <> 200%Z \/ rtype r = Error ->
      Part002.fetch_handler h req w
      = mkHandled (RespondWith (Ok (Some r)))
          (mkWorld (caches w) (S (fetches w)))
          [EvCachesMatch (href (url req)); EvFetch req CacheDefault]).
Proof using Hkept.
  intros Hs Hget Hmiss Hnet. cbv zeta.
  unfold Part002.fetch_handler. cbv zeta.
  rewrite Hkept, Hs. unfold Part002.cache_first_body. cbv zeta. run_handler.
  rewrite Hget, Hmiss. cbn. rewrite Hnet. cbn. split.
  - intros Hok Ht Hhttp. rewrite Hok.
    assert (He : ResponseType_eqb (rtype r) Error = false)
      by (destruct (rtype r); cbn; congruence).
    rewrite He. cbn. unfold put_accepts. unfold http_scheme in Hhttp.
    now rewrite Hget, Hhttp, Hok.
  - intros Hc.
    assert (He : negb (status r =? 200)%Z
                 || ResponseType_eqb (rtype r) Error = true).
    { destruct Hc as [Hc| ->]; [|apply orb_true_r].
      apply Z.eqb_neq in Hc. now rewrite Hc. }
    now rewrite He.
Qed.

Lemma part002_miss_offline :
  JsString.includes (href (url req)) "supabase.co" = false ->
  method req = "GET" ->
  storage_match (caches w) (href (url req)) = None ->
  net h (fetches w) req CacheDefault = None ->
  outcome (Part002.fetch_handler h req w)
  = RespondWith
      (Ok (if mode req =? "navigate"
           then storage_match (caches w) (href (parse_url h "/index.html"))
           else Some Part002.offline_text))
  /\ caches (world (Part002.fetch_handler h req w)) = caches w.
Proof using Hkept.
  intros Hs Hget Hmiss Hnet.
  unfold Part002.fetch_handler. cbv zeta.
  rewrite Hkept, Hs. unfold Part002.cache_first_body. cbv zeta. run_handler.
  rewrite Hget, Hmiss. cbn. rewrite Hnet. cbn.
  destruct (mode req =? "navigate"); cbn; now split.
Qed.

End CompleteOffline.

(** X12: in the v2.1.0 draft a request whose URL contains supabase.co (and
    that is not skipped) is network-first without any status test: the
    response of a successful fetch is returned and put into the runtime
    partition whatever its status; when the fetch fails the request's
    cached response is returned and, when there is none, a synthetic JSON
    response whose status is 200. *)
Theorem supabase_requests_are_network_first_and_cached
    (h : Host) (req : Request) (w : World)
    (Hkept : Part002.skipped h (url req) = false)
    (Hapi : JsString.includes (href (url req)) "supabase.co" = true) :
  (forall r, net h (fetches w) req CacheDefault = Some r ->
     outcome (Part002.fetch_handler h req w) = RespondWith (Ok (Some r))
     /\ calls (Part002.fetch_handler h req w)
        = [ EvFetch req CacheDefault; EvCachesOpen Part002.RUNTIME_CACHE;
            EvCachePut Part002.RUNTIME_CACHE (href (url req)) r ]
     /\ (put_accepts req r = true ->
         storage_lookup (caches (world (Part002.fetch_handler h req w)))
           Part002.RUNTIME_CACHE (href (url req)) = Some r))
  /\ (net h (fetches w) req CacheDefault = None ->
      outcome (Part002.fetch_handler h req w)
      = RespondWith
          (Ok (Some (match (if method req =? "GET"
                            then storage_match (caches w) (href (url req))
                            else None) with
                     | Some c => c
                     | None => Part002.offline_json
                     end))))
  /\ status Part002.offline_json = 200%Z.
Proof.
  split; [|split; [|reflexivity]].
  - intros r Hnet. rewrite (part002_supabase_online h req w Hkept r Hapi Hnet).
    cbn [outcome calls world]. split; [reflexivity|].
    split; [reflexivity|].
    intros Hput. unfold cache_put. rewrite Hput. cbn [after caches].
    apply storage_lookup_put_open.
  - intros Hnet. now rewrite (part002_supabase_offline h req w Hkept Hapi Hnet).
Qed.

Lemma supabase_requests_are_network_first_and_cached_witness :
  outcome (Part002.fetch_handler (Demo.host "/" Demo.offline)
             Demo.supabase_get (Demo.with_shell Part002.CACHE_NAME))
  = RespondWith (Ok (Some Part002.offline_json)).
Proof.
  destruct (supabase_requests_are_network_first_and_cached
              (Demo.host "/" Demo.offline) Demo.supabase_get
              (Demo.with_shell Part002.CACHE_NAME) eq_refl eq_refl)
    as (_ & Hoff & _).
  rewrite Hoff; reflexivity.
Defined.

(** X13: on its cache-first path the v2.1.0 draft answers a GET request
    that missed the cache from the network; a response with status 200
    whose type is not error is put into the static partition when the
    request is same-origin and into the runtime partition otherwise, and
    any other response is returned unstored.  When the fetch fails a
    navigation gets the result of the lookup of /index.html and every
    other request a synthetic text response with status 503. *)
Theorem complete_offline_cache_first_miss
    (h : Host) (req : Request) (w : World)
    (Hkept : Part002.skipped h (url req) = false)
    (Hapi : JsString.includes (href (url req)) "supabase.co" = false)
    (Hget : method req = "GET")
    (Hmiss : storage_match (caches w) (href (url req)) = None) :
  let partition :=
    if origin (url req) =? location_origin h then Part002.CACHE_NAME
    else Part002.RUNTIME_CACHE in
  (forall r, net h (fetches w) req CacheDefault = Some r ->
     (status r = 200%Z -> rtype r <> Error -> http_scheme (url req) = true ->
      Part002.fetch_handler h req w
      = mkHandled (RespondWith (Ok (Some r)))
          (mkWorld
             (storage_put (storage_open (caches w) partition) partition
                (href (url req)) r)
             (S (fetches w)))
          [ EvCachesMatch (href (url req)); EvFetch req CacheDefault;
            EvCachesOpen partition; EvCachePut partition (href (url req)) r ])
     /\ (status r <> 200%Z \/ rtype r = Error ->
         Part002.fetch_handler h req w
         = mkHandled (RespondWith (Ok (Some r)))
             (mkWorld (caches w) (S (fetches w)))
             [EvCachesMatch (href (url req)); EvFetch req CacheDefault]))
  /\ (net h (fetches w) req CacheDefault = None ->
      outcome (Part002.fetch_handler h req w)
      = RespondWith
          (Ok (if mode req =? "navigate"
               then storage_match (caches w) (href (parse_url h "/index.html"))
               else Some Part002.offline_text))
      /\ caches (world (Part002.fetch_handler h req w)) = caches w).
Proof.
  cbv zeta. split.
  - intros r Hnet.
    exact (part002_miss_online h req w Hkept r Hapi Hget Hmiss Hnet).
  - intros Hnet.
    exact (part002_miss_offline h req w Hkept Hapi Hget Hmiss Hnet).
Qed.

Lemma complete_offline_cache_first_miss_witness :
  outcome (Part002.fetch_handler (Demo.host "/" Demo.offline) Demo.script
             (Demo.with_shell Part002.CACHE_NAME))
  = RespondWith (Ok (Some Part002.offline_text)).
Proof.
  destruct (complete_offline_cache_first_miss
              (Demo.host "/" Demo.offline) Demo.script
              (Demo.with_shell Part002.CACHE_NAME)
              eq_refl eq_refl eq_refl eq_refl) as [_ Hoff].
  destruct (Hoff eq_refl) as [Hout _]. exact Hout.
Defined.

(** X14: the v1.0 draft leaves every cross-origin request alone, whatever
    its method, and the v2.1.0 draft leaves alone every cross-origin
    request whose URL contains none of supabase, cdnjs.cloudflare.com and
    cdn.jsdelivr.net: no respondWith, no host call, the store untouched. *)
Theorem cross_origin_requests_pass_through
    (h : Host) (req : Request) (w : World)
    (Hforeign : origin (url req) <> location_origin h) :
  Part000.fetch_handler h req w = mkHandled PassThrough w []
  /\ (JsString.includes (href (url req)) "supabase" = false ->
      JsString.includes (href (url req)) "cdnjs.cloudflare.com" = false ->
      JsString.includes (href (url req)) "cdn.jsdelivr.net" = false ->
      Part002.fetch_handler h req w = mkHandled PassThrough w []).
Proof.
  apply String.eqb_neq in Hforeign. split.
  - unfold Part000.fetch_handler. now rewrite Hforeign.
  - intros H1 H2 H3. unfold Part002.fetch_handler, Part002.skipped.
    cbv zeta. now rewrite Hforeign, H1, H2, H3.
Qed.

Lemma cross_origin_requests_pass_through_witness :
  Part002.fetch_handler (Demo.host "/" Demo.offline) Scenario.foreign
    (Demo.with_shell Part002.CACHE_NAME)
  = mkHandled PassThrough (Demo.with_shell Part002.CACHE_NAME) [].
Proof.
  destruct (cross_origin_requests_pass_through
              (Demo.host "/" Demo.offline) Scenario.foreign
              (Demo.with_shell Part002.CACHE_NAME)) as [_ Hskip].
  - vm_compute. discriminate.
  - apply Hskip; reflexivity.
Defined.

(** ** The v2.1.0 draft: the CACHE_URLS message *)

Section CacheUrls.

Variables (h : Host) (w : World) (us : list string).







End CacheUrls.



(** On a list of distinct, fetchable URLs the message caches them all. *)
Lemma cache_urls_distinct_example :
  let run := Part002Message.message_handler
               (Demo.host "/" Scenario.ok_network)
               (Scenario.cache_urls ["/reports.html"; "/sales.html"])
               (Demo.with_shell Part002.CACHE_NAME) in
  result run = Ok tt
  /\ storage_lookup (caches (after run)) Part002.RUNTIME_CACHE
       (Demo.site ++ "/sales.html") = Some (Demo.ok_page "asset").
Proof. cbv zeta. split; vm_compute; reflexivity. Qed.

(** ** Background sync *)

(** X16: [syncOfflineData] never rejects, whatever its three data
    functions do; it runs neither the upload nor the clearing when there
    is no offline data, and it does not clear the offline data when the
    upload of an item fails.  With the placeholder functions of the
    drafts, the sync listener issues no host call and leaves the store
    untouched for every tag. *)
Theorem background_sync_is_contained {D : Type}
    (getOfflineData : M (list D)) (syncDataToServer : D -> M unit)
    (clearOfflineData : M unit) (w : World) :
  let run :=
    OfflineSync.syncOfflineData_with getOfflineData syncDataToServer
      clearOfflineData w in
  result run = Ok tt
  /\ (result (getOfflineData w) = Ok [] ->
      run = mkRun (Ok tt) (after (getOfflineData w))
              (emitted (getOfflineData w)))
  /\ (forall data e,
        result (getOfflineData w) = Ok data -> data <> [] ->
        let upload := for_each syncDataToServer data
                        (after (getOfflineData w)) in
        result upload = Throw e ->
        run = mkRun (Ok tt) (after upload)
                (emitted (getOfflineData w) ++ emitted upload))
  /\ (forall tag, OfflineSync.sync_handler tag w = mkRun (Ok tt) w []).
Proof.
  cbv zeta. unfold OfflineSync.syncOfflineData_with. repeat apply conj.
  - destruct (settles_try_catch
                (offlineData <- getOfflineData ;;
                 if (0 <? length offlineData)%nat
                 then for_each syncDataToServer offlineData ;; clearOfflineData
                 else ret tt)
                (fun _ => ret tt) (fun e => settles_ret tt) w) as [[] Hr].
    exact Hr.
  - intros Hget.
    rewrite (try_catch_ok _ _ w tt);
      rewrite (bind_ok getOfflineData _ w [] Hget); cbn; try reflexivity.
    now rewrite app_nil_r.
  - intros data e Hget Hne Hup.
    assert (Hlen : (0 <? length data)%nat = true)
      by (destruct data; [contradiction|reflexivity]).
    assert (Hbody :
      (offlineData <- getOfflineData ;;
       if (0 <? length offlineData)%nat
       then for_each syncDataToServer offlineData ;; clearOfflineData
       else ret tt) w
      = mkRun (Throw e)
          (after (for_each syncDataToServer data (after (getOfflineData w))))
          (emitted (getOfflineData w)
             ++ emitted (for_each syncDataToServer data
                           (after (getOfflineData w))))).
    { rewrite (bind_ok getOfflineData _ w data Hget). rewrite Hlen.
      now rewrite (bind_throw _ _ _ e Hup). }
    rewrite (try_catch_throw _ _ w e) by now rewrite Hbody.
    rewrite Hbody. cbn [result after emitted ret]. now rewrite app_nil_r.
  - intros tag. unfold OfflineSync.sync_handler.
    destruct (tag =? "background-sync"); [|reflexivity].
    destruct w. reflexivity.
Qed.

Lemma background_sync_is_contained_witness :
  OfflineSync.syncOfflineData_with (ret [tt])
    (fun _ : unit =>
       fetch (Demo.host "/" Demo.offline) Demo.bare CacheDefault ;; ret tt)
    (caches_delete Sw.STATIC_CACHE) (Demo.with_shell Sw.STATIC_CACHE)
  = mkRun (Ok tt) (mkWorld (caches (Demo.with_shell Sw.STATIC_CACHE)) 1)
      [EvFetch Demo.bare CacheDefault].
Proof.
  destruct (background_sync_is_contained (ret [tt])
              (fun _ : unit =>
                 fetch (Demo.host "/" Demo.offline) Demo.bare CacheDefault ;;
                 ret tt)
              (caches_delete Sw.STATIC_CACHE)
              (Demo.with_shell Sw.STATIC_CACHE)) as (_ & _ & Hkeep & _).
  rewrite (Hkeep [tt] FetchFailed eq_refl); [reflexivity|discriminate|].
  reflexivity.
Defined.

(** ** The string tests of the drafts *)

Lemma append_empty (b : string) : EmptyString ++ b = b.
Proof. reflexivity. Qed.

Lemma append_cons (c : ascii) (a b : string) :
  String c a ++ b = String c (a ++ b).
Proof. reflexivity. Qed.

Lemma string_length_app (a b : string) :
  String.length (a ++ b) = (String.length a + String.length b)%nat.
Proof.
  induction a as [|c a IH]; [reflexivity|].
  rewrite append_cons. cbn. now rewrite IH.
Qed.

Lemma substring_none (n : nat) (s : string) :
  String.substring n 0 s = EmptyString.
Proof.
  revert s. induction n as [|n IH]; intros [|c s]; cbn; auto.
Qed.

Lemma substring_all (s : string) :
  String.substring 0 (String.length s) s = s.
Proof. induction s as [|c s IH]; cbn; [reflexivity|now rewrite IH]. Qed.

Lemma substring_app_l (a b : string) :
  String.substring 0 (String.length a) (a ++ b) = a.
Proof.
  induction a as [|c a IH]; [apply (substring_none 0)|].
  rewrite append_cons. cbn. now rewrite IH.
Qed.

Lemma substring_app_r (a b : string) :
  String.substring (String.length a) (String.length b) (a ++ b) = b.
Proof.
  induction a as [|c a IH]; [apply substring_all|].
  rewrite append_cons. exact IH.
Qed.

Lemma substring_split (k : nat) (s : string) :
  (k <= String.length s)%nat ->
  String.substring 0 k s ++ String.substring k (String.length s - k) s = s.
Proof.
  revert s. induction k as [|k IH]; intros s Hk.
  - rewrite (substring_none 0), Nat.sub_0_r, append_empty.
    apply substring_all.
  - destruct s as [|c s]; cbn in Hk |- *; [lia|].
    rewrite append_cons, IH by lia. reflexivity.
Qed.

Lemma index_of_prefix (p r : string) : String.index 0 p (p ++ r) = Some 0%nat.
Proof.
  destruct (p ++ r) as [|c s] eqn:E.
  - destruct p; [reflexivity|discriminate].
  - cbn [String.index]. rewrite <- E.
    assert (Hp : String.prefix p (p ++ r) = true)
      by (apply String.prefix_correct, substring_app_l).
    now rewrite Hp.
Qed.

(** [s.replace(p, '')] removes a leading [p]. *)
Lemma replace_leading (p r : string) :
  JsString.replace (p ++ r) p EmptyString = r.
Proof.
  unfold JsString.replace. rewrite index_of_prefix.
  rewrite (substring_none 0), !append_empty. cbn [Nat.add].
  rewrite string_length_app.
  replace (String.length p + String.length r - String.length p)%nat
    with (String.length r) by lia.
  apply substring_app_r.
Qed.

(** [s.endsWith(p)] holds exactly of the strings that end in [p]. *)
Lemma endsWith_spec (s p : string) :
  JsString.endsWith s p = true <-> exists pre, s = pre ++ p.
Proof.
  unfold JsString.endsWith. cbv zeta. split.
  - intros H. apply andb_true_iff in H as [Hle Heq].
    apply Nat.leb_le in Hle. apply String.eqb_eq in Heq.
    exists (String.substring 0 (String.length s - String.length p) s).
    pose proof (substring_split (String.length s - String.length p) s) as Hsp.
    replace (String.length s - (String.length s - String.length p))%nat
      with (String.length p) in Hsp by lia.
    rewrite Heq in Hsp. symmetry. apply Hsp. lia.
  - intros [pre ->]. rewrite string_length_app.
    apply andb_true_iff. split; [apply Nat.leb_le; lia|].
    replace (String.length pre + String.length p - String.length p)%nat
      with (String.length pre) by lia.
    rewrite substring_app_r. apply String.eqb_refl.
Qed.

(** X17: in sw.js, for a same-origin GET request inside the scope that is
    neither a navigation nor cached under its full URL, and whose fetch
    fails, the answer is whatever is cached for its path alone, BASE_PATH
    included: the query string is ignored.  Only when the path is not
    cached either is the synthetic 503 returned. *)
Theorem offline_fallback_ignores_the_query
    (h : Host) (req : Request) (w : World) (rest : string)
    (Hget : method req = "GET")
    (Hnav : is_navigate req = false)
    (Horigin : origin (url req) = location_origin h)
    (Hscope : pathname (url req) = BASE_PATH h ++ rest)
    (Hmiss : storage_match (caches w) (href (url req)) = None)
    (Hnet : net h (fetches w) req CacheDefault = None) :
  let path_key := href (parse_url h (pathname (url req))) in
  Sw.fetch_handler h req w
  = mkHandled
      (RespondWith
         (Ok (Some (match storage_match (caches w) path_key with
                    | Some p => p
                    | None => offline_503
                    end))))
      (mkWorld (caches w) (S (fetches w)))
      [ EvCachesMatch (href (url req)); EvFetch req CacheDefault;
        EvCachesMatch path_key ].
Proof.
  cbv zeta. rewrite (sw_runs_body h req w Hget), respond_returns.
  rewrite (sw_body_not_navigate h req w Hnav).
  unfold cache_first. cbv zeta. run_handler.
  rewrite Hget, Hmiss. cbn. rewrite Hnet. cbn.
  rewrite Hnav, Horigin, String.eqb_refl. cbn.
  rewrite Hscope, replace_leading.
  now destruct (storage_match (caches w) (href (parse_url h (BASE_PATH h ++ rest)))).
Qed.

Lemma offline_fallback_ignores_the_query_witness :
  outcome (Sw.fetch_handler (Demo.host "/" Demo.offline)
             Demo.versioned_script (Demo.with_script Sw.DYNAMIC_CACHE))
  = RespondWith (Ok (Some (Demo.ok_page "app"))).
Proof.
  rewrite (offline_fallback_ignores_the_query (Demo.host "/" Demo.offline)
             Demo.versioned_script (Demo.with_script Sw.DYNAMIC_CACHE)
             "app.js" eq_refl eq_refl eq_refl eq_refl eq_refl eq_refl).
  reflexivity.
Defined.

Section EmitsOnly.

Variable ok : Event -> bool.

Lemma emits_only_ret {A} (a : A) : emits_only ok (ret a).
Proof. now intros w. Qed.

Lemma emits_only_throw {A} (e : Exn) : emits_only ok (@throw A e).
Proof. now intros w. Qed.

Lemma emits_only_bind {A B} (m : M A) (f : A -> M B) :
  emits_only ok m -> (forall a, emits_only ok (f a)) ->
  emits_only ok (bind m f).
Proof.
  intros Hm Hf w. specialize (Hm w). unfold bind.
  destruct (m w) as [[a|e] w1 l1]; cbn in Hm |- *; [|exact Hm].
  specialize (Hf a w1). destruct (f a w1) as [r w2 l2]. cbn in *.
  now rewrite forallb_app, Hm, Hf.
Qed.

Lemma emits_only_try_catch {A} (m : M A) (k : Exn -> M A) :
  emits_only ok m -> (forall e, emits_only ok (k e)) ->
  emits_only ok (try_catch m k).
Proof.
  intros Hm Hk w. specialize (Hm w). unfold try_catch.
  destruct (m w) as [[a|e] w1 l1]; cbn in Hm |- *; [exact Hm|].
  specialize (Hk e w1). destruct (k e w1) as [r w2 l2]. cbn in *.
  now rewrite forallb_app, Hm, Hk.
Qed.

Lemma emits_only_fetch h req cm :
  ok (EvFetch req cm) = true -> emits_only ok (fetch h req cm).
Proof.
  intros Hok w. unfold fetch.
  destruct (net h (fetches w) req cm); cbn; now rewrite Hok.
Qed.

Lemma emits_only_caches_match req :
  ok (EvCachesMatch (href (url req))) = true ->
  emits_only ok (caches_match req).
Proof. intros Hok w. cbn. now rewrite Hok. Qed.

Lemma emits_only_caches_match_url h s :
  ok (EvCachesMatch (href (parse_url h s))) = true ->
  emits_only ok (caches_match_url h s).
Proof. intros Hok w. cbn. now rewrite Hok. Qed.

Lemma emits_only_caches_open name :
  ok (EvCachesOpen name) = true -> emits_only ok (caches_open name).
Proof. intros Hok w. cbn. now rewrite Hok. Qed.

Lemma emits_only_cache_put name req r :
  ok (EvCachePut name (href (url req)) r) = true ->
  emits_only ok (cache_put name req r).
Proof. intros Hok w. cbn. now rewrite Hok. Qed.

End EmitsOnly.

Ltac emit_only :=
  repeat first
    [ apply emits_only_ret | apply emits_only_throw
    | apply emits_only_fetch; reflexivity
    | apply emits_only_caches_match; reflexivity
    | apply emits_only_caches_match_url; reflexivity
    | apply emits_only_caches_open; reflexivity
    | apply emits_only_cache_put; reflexivity
    | apply emits_only_bind; [|intros ?]
    | apply emits_only_try_catch; [|intros ?]
    | match goal with
      | |- emits_only _ (if ?c then _ else _) => destruct c
      | |- emits_only _ (match ?x with _ => _ end) => destruct x
      end ].

(** X18: the Supabase bypass of the v1.2 draft tests the host name for the
    suffix supabase.co only: a GET request is answered by the single
    no-store fetch, with no cache call, exactly when its host name is some
    prefix followed by supabase.co, whatever the prefix (a host such as
    notsupabase.co included). *)
Theorem supabase_bypass_matches_any_suffix
    (h : Host) (req : Request) (w : World) (Hget : method req = "GET") :
  (exists pre, hostname (url req) = pre ++ "supabase.co")
  <-> calls (Part003.fetch_handler h req w) = [EvFetch req CacheNoStore].
Proof.
  rewrite <- endsWith_spec.
  rewrite (part003_runs_body h req w Hget), respond_returns.
  cbn [calls]. unfold Part003.fetch_body. cbv zeta.
  destruct (JsString.endsWith (hostname (url req)) "supabase.co") eqn:Hs.
  - split; [intros _|reflexivity]. run_handler.
    now destruct (net h (fetches w) req CacheNoStore).
  - split; [discriminate|]. intros Hcalls. exfalso.
    set (default_only e := match e with
                           | EvFetch _ CacheNoStore => false
                           | _ => true
                           end).
    match type of Hcalls with
    | emitted (?m w) = _ =>
        assert (Hm : emits_only default_only m)
    end.
    { unfold Part003.shell_lookup, or_else, cache_first. cbv zeta.
      emit_only. }
    specialize (Hm w). rewrite Hcalls in Hm. discriminate.
Qed.

Lemma supabase_bypass_matches_any_suffix_witness :
  calls (Part003.fetch_handler (Demo.host "/" Demo.offline) Demo.supabase_get
           (Demo.with_shell Part003.STATIC_CACHE))
  = [EvFetch Demo.supabase_get CacheNoStore].
Proof.
  apply (supabase_bypass_matches_any_suffix (Demo.host "/" Demo.offline)
           Demo.supabase_get (Demo.with_shell Part003.STATIC_CACHE) eq_refl).
  exists "tuba.". reflexivity.
Defined.
